(** * WhiteboardStore: a shallow embedding of
      [web/flat-web/src/stores/whiteboard-store.ts]

    The store is the adapter between the whiteboard SDK and the reactive
    view layer.  Its fields become a record, every method becomes a
    function on that record, and every call the store makes on an external
    collaborator (the room handle, the window manager, the SDK, the
    preloader, the console) is recorded, in order, in a list of [Effect]s.

    JavaScript is single-threaded: a method runs without interruption up to
    its first [await].  An [async] method is therefore split in two: the
    part that runs at the call, which either completes or suspends on a
    request, and the continuation that runs once the environment has
    answered the request.  The [Machine] further down interleaves calls,
    answers and the passing of time. *)

From Stdlib Require Import ZArith NArith List String Ascii Bool Lia.
Import ListNotations.

Local Open Scope string_scope.
Local Open Scope list_scope.
Local Open Scope Z_scope.

(** ** Values of the SDK that the store reads or passes along *)

(** [RoomPhase], [ViewMode], [ViewVisionMode] and [DeviceType] are
    enumerations of white-web-sdk. *)
Inductive RoomPhase :=
  Connecting | Connected | Reconnecting | Disconnecting | Disconnected.

Inductive ViewMode := Freedom | Follower | Broadcaster.

Module ViewVisionMode.

Inductive t := Writable | Freedom | Listening.

Definition eqb (a b : t) : bool :=
  match a, b with
  | Writable, Writable | Freedom, Freedom | Listening, Listening => true
  | _, _ => false
  end.

End ViewVisionMode.

Module DeviceType.

Inductive t := Desktop | Touch | Surface.

End DeviceType.

(** A JavaScript [Error] (or whatever value a collaborator throws), known
    by its message. *)
Record Error := { message : string }.

Record PptDescription := {
  src : string;
  width : Z;
  height : Z;
  previewURL : option string
}.

(** [SceneDefinition]: both properties are optional. *)
Record SceneDefinition := {
  name : option string;
  ppt : option PptDescription
}.

Record SceneState := {
  scenes : list SceneDefinition;
  scenePath : string;
  index : Z
}.

Record BroadcastState := { mode : ViewMode }.

Record RoomState := {
  broadcastState : option BroadcastState;
  sceneState : SceneState
}.

(** [Partial<RoomState>], the argument of [onRoomStateChanged]. *)
Record ModifyState := {
  modify_broadcastState : option BroadcastState;
  modify_sceneState : option SceneState
}.

(** What the store reads of the window manager: [mainView.mode] and
    [broadcaster] ([number | undefined]). *)
Record WindowManager := {
  mainView_mode : ViewVisionMode.t;
  broadcaster : option Z
}.

(** The room handle: the two flags the store writes, the state it reads and
    the plugin [getInvisiblePlugin(WindowManager.kind)] gives back (the SDK
    returns [null] when the plugin is not attached). *)
Record Room := {
  disableDeviceInputs : bool;
  disableSerialization : bool;
  state : RoomState;
  getInvisiblePlugin : option WindowManager
}.

Definition set_disableDeviceInputs (v : bool) (r : Room) : Room :=
  {| disableDeviceInputs := v;
     disableSerialization := disableSerialization r;
     state := state r;
     getInvisiblePlugin := getInvisiblePlugin r |}.

Definition set_disableSerialization (v : bool) (r : Room) : Room :=
  {| disableDeviceInputs := disableDeviceInputs r;
     disableSerialization := v;
     state := state r;
     getInvisiblePlugin := getInvisiblePlugin r |}.

(** ** Parameters of [windowManager.addApp] *)

Inductive AppKind :=
| Slide                      (* the literal "Slide" *)
| DocsViewer                 (* BuiltinApps.DocsViewer *)
| MediaPlayer                (* BuiltinApps.MediaPlayer *)
| OtherApp (kind : string).

Record AppOptions := {
  options_scenePath : option string;
  options_title : option string;
  options_scenes : option (list SceneDefinition)
}.

Inductive AppAttributes :=
| no_attributes
| slide_attributes (taskId url : string)
| media_attributes (src : string).

Record AddAppParams := {
  kind : AppKind;
  options : AppOptions;
  attributes : AppAttributes
}.

(** ** Globals read by the store *)

(** The fields of [globalStore] that the store reads; each may be [null] or
    [undefined]. *)
Record GlobalStore := {
  userUUID : option string;
  whiteboardRoomUUID : option string;
  whiteboardRoomToken : option string;
  region : option string;
  userInfo_name : option string
}.

(** [react-device-detect] and the build constants. *)
Record Platform := {
  isWindows : bool;
  isMobile : bool;
  NODE_ENV : string
}.

Record Globals := {
  globalStore : GlobalStore;
  platform : Platform
}.

(** Truthiness of a [string | null | undefined]: the empty string is falsy
    too. *)
Definition truthy (v : option string) : bool :=
  match v with
  | Some s => negb (String.eqb s "")
  | None => false
  end.

(** The varying part of the first argument of [whiteWebSdk.joinRoom]; the
    remaining properties ([floatBar], [disableNewPencil], [hotKeys],
    [useMultiViews], [invisiblePlugins]) are constants of the source. *)
Record JoinRoomParams := {
  join_uuid : string;
  join_roomToken : string;
  join_region : option string;
  join_userId : string;
  join_cursorName : option string;
  join_isWritable : bool;
  join_uid : string
}.

(** ** Calls on the collaborators *)

Inductive Effect :=
| room_setWritable (isWritable : bool)
| room_putScenes (path : string) (scenes : list SceneDefinition) (index : Z)
| room_callbacks_off
| windowManager_setViewMode (mode : ViewMode)
| windowManager_switchMainViewToWriter
| windowManager_setMainViewSceneIndex (index : Z)
| windowManager_addApp (params : AddAppParams)
| windowManager_destroy
| windowManager_emitter_on (event : string)
| new_WhiteWebSdk (deviceType : DeviceType.t)
| new_CursorTool
| whiteWebSdk_joinRoom (params : JoinRoomParams)
| cursorAdapter_setRoom (room : Room)
| coursewarePreloader_preload (pptSrc : string)
| console_log (err : Error)
| console_log_unloaded (uuid : option string)
| console_error (err : Error)
| window_room_set (room : option Room)
| window_manager_set (manager : option WindowManager).

(** ** The debounced preload

    [preloadPPTResource] is [debounce(..., 2000)] of lodash-es; the store
    calls it and cancels it.  The field of the store holds the state of the
    debounced function. *)

(** Modelled from the spec: [debounce] of lodash-es is not part of the
    repository.  Section 9 describes it as a pending-call slot holding the
    latest arguments and a scheduled callback handle.  The handle is kept as
    the instant, in milliseconds, at which the scheduled callback falls
    due. *)
Record Debounced := {
  slot : option string;
  scheduled : option N
}.

Module Debounce.

Definition idle : Debounced := {| slot := None; scheduled := None |}.

(** Modelled from the spec: a new call replaces the slot and reschedules;
    [wait] is the quiet window and [now] the instant of the call. *)
Definition call (wait now : N) (arg : string) (d : Debounced) : Debounced :=
  {| slot := Some arg; scheduled := Some (now + wait)%N |}.

(** Modelled from the spec: cancel clears the slot and unschedules. *)
Definition cancel (d : Debounced) : Debounced := idle.

(** Modelled from the spec: the scheduled callback, at instant [now]; it
    hands over the argument of the last call once the quiet window has
    elapsed, and leaves nothing pending. *)
Definition fire (now : N) (d : Debounced) : option string * Debounced :=
  match scheduled d with
  | Some due => if (due <=? now)%N then (slot d, idle) else (None, d)
  | None => (None, d)
  end.

Definition pending (d : Debounced) : bool :=
  match scheduled d with Some _ => true | None => false end.

End Debounce.

(** ** The store *)

Record WhiteboardStore := {
  room : option Room;
  phase : RoomPhase;
  viewMode : option ViewMode;
  windowManager : option WindowManager;
  isBroadcasterMode : option Z;
  isWritable : bool;
  isShowPreviewPanel : bool;
  isFileOpen : bool;
  isKicked : bool;
  isFocusWindow : bool;
  isWindowMaximization : bool;
  isRightSideClose : bool;
  currentSceneIndex : Z;                  (* a number, see [Number] below *)
  scenesCount : Z;                        (* a number *)
  isCreator : bool;                       (* readonly *)
  preloadPPTResource : Debounced
}.

(** Assignments to one field, [this.f = v]. *)
Definition set_room (v : option Room) (this : WhiteboardStore)
    : WhiteboardStore :=
  {| room := v; phase := phase this; viewMode := viewMode this;
     windowManager := windowManager this;
     isBroadcasterMode := isBroadcasterMode this;
     isWritable := isWritable this;
     isShowPreviewPanel := isShowPreviewPanel this;
     isFileOpen := isFileOpen this; isKicked := isKicked this;
     isFocusWindow := isFocusWindow this;
     isWindowMaximization := isWindowMaximization this;
     isRightSideClose := isRightSideClose this;
     currentSceneIndex := currentSceneIndex this;
     scenesCount := scenesCount this; isCreator := isCreator this;
     preloadPPTResource := preloadPPTResource this |}.

Definition set_phase (v : RoomPhase) (this : WhiteboardStore)
    : WhiteboardStore :=
  {| room := room this; phase := v; viewMode := viewMode this;
     windowManager := windowManager this;
     isBroadcasterMode := isBroadcasterMode this;
     isWritable := isWritable this;
     isShowPreviewPanel := isShowPreviewPanel this;
     isFileOpen := isFileOpen this; isKicked := isKicked this;
     isFocusWindow := isFocusWindow this;
     isWindowMaximization := isWindowMaximization this;
     isRightSideClose := isRightSideClose this;
     currentSceneIndex := currentSceneIndex this;
     scenesCount := scenesCount this; isCreator := isCreator this;
     preloadPPTResource := preloadPPTResource this |}.

Definition set_viewMode (v : option ViewMode) (this : WhiteboardStore)
    : WhiteboardStore :=
  {| room := room this; phase := phase this; viewMode := v;
     windowManager := windowManager this;
     isBroadcasterMode := isBroadcasterMode this;
     isWritable := isWritable this;
     isShowPreviewPanel := isShowPreviewPanel this;
     isFileOpen := isFileOpen this; isKicked := isKicked this;
     isFocusWindow := isFocusWindow this;
     isWindowMaximization := isWindowMaximization this;
     isRightSideClose := isRightSideClose this;
     currentSceneIndex := currentSceneIndex this;
     scenesCount := scenesCount this; isCreator := isCreator this;
     preloadPPTResource := preloadPPTResource this |}.

Definition set_windowManager (v : option WindowManager) (this : WhiteboardStore)
    : WhiteboardStore :=
  {| room := room this; phase := phase this; viewMode := viewMode this;
     windowManager := v; isBroadcasterMode := isBroadcasterMode this;
     isWritable := isWritable this;
     isShowPreviewPanel := isShowPreviewPanel this;
     isFileOpen := isFileOpen this; isKicked := isKicked this;
     isFocusWindow := isFocusWindow this;
     isWindowMaximization := isWindowMaximization this;
     isRightSideClose := isRightSideClose this;
     currentSceneIndex := currentSceneIndex this;
     scenesCount := scenesCount this; isCreator := isCreator this;
     preloadPPTResource := preloadPPTResource this |}.

Definition set_isBroadcasterMode (v : option Z) (this : WhiteboardStore)
    : WhiteboardStore :=
  {| room := room this; phase := phase this; viewMode := viewMode this;
     windowManager := windowManager this; isBroadcasterMode := v;
     isWritable := isWritable this;
     isShowPreviewPanel := isShowPreviewPanel this;
     isFileOpen := isFileOpen this; isKicked := isKicked this;
     isFocusWindow := isFocusWindow this;
     isWindowMaximization := isWindowMaximization this;
     isRightSideClose := isRightSideClose this;
     currentSceneIndex := currentSceneIndex this;
     scenesCount := scenesCount this; isCreator := isCreator this;
     preloadPPTResource := preloadPPTResource this |}.

Definition set_isWritable (v : bool) (this : WhiteboardStore)
    : WhiteboardStore :=
  {| room := room this; phase := phase this; viewMode := viewMode this;
     windowManager := windowManager this;
     isBroadcasterMode := isBroadcasterMode this; isWritable := v;
     isShowPreviewPanel := isShowPreviewPanel this;
     isFileOpen := isFileOpen this; isKicked := isKicked this;
     isFocusWindow := isFocusWindow this;
     isWindowMaximization := isWindowMaximization this;
     isRightSideClose := isRightSideClose this;
     currentSceneIndex := currentSceneIndex this;
     scenesCount := scenesCount this; isCreator := isCreator this;
     preloadPPTResource := preloadPPTResource this |}.

Definition set_isShowPreviewPanel (v : bool) (this : WhiteboardStore)
    : WhiteboardStore :=
  {| room := room this; phase := phase this; viewMode := viewMode this;
     windowManager := windowManager this;
     isBroadcasterMode := isBroadcasterMode this;
     isWritable := isWritable this; isShowPreviewPanel := v;
     isFileOpen := isFileOpen this; isKicked := isKicked this;
     isFocusWindow := isFocusWindow this;
     isWindowMaximization := isWindowMaximization this;
     isRightSideClose := isRightSideClose this;
     currentSceneIndex := currentSceneIndex this;
     scenesCount := scenesCount this; isCreator := isCreator this;
     preloadPPTResource := preloadPPTResource this |}.

Definition set_isFileOpen (v : bool) (this : WhiteboardStore)
    : WhiteboardStore :=
  {| room := room this; phase := phase this; viewMode := viewMode this;
     windowManager := windowManager this;
     isBroadcasterMode := isBroadcasterMode this;
     isWritable := isWritable this;
     isShowPreviewPanel := isShowPreviewPanel this; isFileOpen := v;
     isKicked := isKicked this; isFocusWindow := isFocusWindow this;
     isWindowMaximization := isWindowMaximization this;
     isRightSideClose := isRightSideClose this;
     currentSceneIndex := currentSceneIndex this;
     scenesCount := scenesCount this; isCreator := isCreator this;
     preloadPPTResource := preloadPPTResource this |}.

Definition set_isKicked (v : bool) (this : WhiteboardStore)
    : WhiteboardStore :=
  {| room := room this; phase := phase this; viewMode := viewMode this;
     windowManager := windowManager this;
     isBroadcasterMode := isBroadcasterMode this;
     isWritable := isWritable this;
     isShowPreviewPanel := isShowPreviewPanel this;
     isFileOpen := isFileOpen this; isKicked := v;
     isFocusWindow := isFocusWindow this;
     isWindowMaximization := isWindowMaximization this;
     isRightSideClose := isRightSideClose this;
     currentSceneIndex := currentSceneIndex this;
     scenesCount := scenesCount this; isCreator := isCreator this;
     preloadPPTResource := preloadPPTResource this |}.

Definition set_isFocusWindow (v : bool) (this : WhiteboardStore)
    : WhiteboardStore :=
  {| room := room this; phase := phase this; viewMode := viewMode this;
     windowManager := windowManager this;
     isBroadcasterMode := isBroadcasterMode this;
     isWritable := isWritable this;
     isShowPreviewPanel := isShowPreviewPanel this;
     isFileOpen := isFileOpen this; isKicked := isKicked this;
     isFocusWindow := v; isWindowMaximization := isWindowMaximization this;
     isRightSideClose := isRightSideClose this;
     currentSceneIndex := currentSceneIndex this;
     scenesCount := scenesCount this; isCreator := isCreator this;
     preloadPPTResource := preloadPPTResource this |}.

Definition set_isWindowMaximization (v : bool) (this : WhiteboardStore)
    : WhiteboardStore :=
  {| room := room this; phase := phase this; viewMode := viewMode this;
     windowManager := windowManager this;
     isBroadcasterMode := isBroadcasterMode this;
     isWritable := isWritable this;
     isShowPreviewPanel := isShowPreviewPanel this;
     isFileOpen := isFileOpen this; isKicked := isKicked this;
     isFocusWindow := isFocusWindow this; isWindowMaximization := v;
     isRightSideClose := isRightSideClose this;
     currentSceneIndex := currentSceneIndex this;
     scenesCount := scenesCount this; isCreator := isCreator this;
     preloadPPTResource := preloadPPTResource this |}.

Definition set_isRightSideClose (v : bool) (this : WhiteboardStore)
    : WhiteboardStore :=
  {| room := room this; phase := phase this; viewMode := viewMode this;
     windowManager := windowManager this;
     isBroadcasterMode := isBroadcasterMode this;
     isWritable := isWritable this;
     isShowPreviewPanel := isShowPreviewPanel this;
     isFileOpen := isFileOpen this; isKicked := isKicked this;
     isFocusWindow := isFocusWindow this;
     isWindowMaximization := isWindowMaximization this;
     isRightSideClose := v; currentSceneIndex := currentSceneIndex this;
     scenesCount := scenesCount this; isCreator := isCreator this;
     preloadPPTResource := preloadPPTResource this |}.

Definition set_currentSceneIndex (v : Z) (this : WhiteboardStore)
    : WhiteboardStore :=
  {| room := room this; phase := phase this; viewMode := viewMode this;
     windowManager := windowManager this;
     isBroadcasterMode := isBroadcasterMode this;
     isWritable := isWritable this;
     isShowPreviewPanel := isShowPreviewPanel this;
     isFileOpen := isFileOpen this; isKicked := isKicked this;
     isFocusWindow := isFocusWindow this;
     isWindowMaximization := isWindowMaximization this;
     isRightSideClose := isRightSideClose this; currentSceneIndex := v;
     scenesCount := scenesCount this; isCreator := isCreator this;
     preloadPPTResource := preloadPPTResource this |}.

Definition set_scenesCount (v : Z) (this : WhiteboardStore)
    : WhiteboardStore :=
  {| room := room this; phase := phase this; viewMode := viewMode this;
     windowManager := windowManager this;
     isBroadcasterMode := isBroadcasterMode this;
     isWritable := isWritable this;
     isShowPreviewPanel := isShowPreviewPanel this;
     isFileOpen := isFileOpen this; isKicked := isKicked this;
     isFocusWindow := isFocusWindow this;
     isWindowMaximization := isWindowMaximization this;
     isRightSideClose := isRightSideClose this;
     currentSceneIndex := currentSceneIndex this; scenesCount := v;
     isCreator := isCreator this;
     preloadPPTResource := preloadPPTResource this |}.

Definition set_preloadPPTResource (v : Debounced) (this : WhiteboardStore)
    : WhiteboardStore :=
  {| room := room this; phase := phase this; viewMode := viewMode this;
     windowManager := windowManager this;
     isBroadcasterMode := isBroadcasterMode this;
     isWritable := isWritable this;
     isShowPreviewPanel := isShowPreviewPanel this;
     isFileOpen := isFileOpen this; isKicked := isKicked this;
     isFocusWindow := isFocusWindow this;
     isWindowMaximization := isWindowMaximization this;
     isRightSideClose := isRightSideClose this;
     currentSceneIndex := currentSceneIndex this;
     scenesCount := scenesCount this; isCreator := isCreator this;
     preloadPPTResource := v |}.


(** ** Asynchronous methods *)

(** How a [Promise<void>] settles. *)
Inductive Settled := Resolved | Rejected (reason : Error).

(** The places where a method of the store is suspended at an [await],
    each with the locals its continuation still needs. *)
Inductive Cont :=
| await_room_setWritable (isWritable : bool)   (* updateWritable *)
| await_switchMainViewToWriter                 (* switchMainViewToWriter *)
| await_addApp_in_try                          (* openDocs..., openMedia... *)
| await_addApp                                 (* addApp *)
| await_joinRoom                               (* joinWhiteboardRoom *)
| await_preloadPPTResource.                    (* onRoomStateChanged *)

(** A method either runs to its end, settling the promise it returned, or
    suspends. *)
Inductive Async := Return (result : Settled) | Await (k : Cont).

(** The environment's answer to the awaited request. *)
Inductive Answer :=
| fulfilled
| fulfilled_with (room : Room)
| rejected (reason : Error).

(** What a method leaves behind: the store, the calls it made on the
    collaborators, and for an asynchronous method how far it got. *)
Definition Sync : Type := WhiteboardStore * list Effect.
Definition Step : Type := WhiteboardStore * list Effect * Async.

(** ** Plain mutators *)

Definition updateRoom (room : Room) (this : WhiteboardStore) : Sync :=
  (set_room (Some room) this, []).

Definition updatePhase (phase : RoomPhase) (this : WhiteboardStore) : Sync :=
  (set_phase phase this, []).

Definition updateViewMode (viewMode : ViewMode) (this : WhiteboardStore) : Sync :=
  (set_viewMode (Some viewMode) this, []).

Definition updateWindowManager (windowManager : option WindowManager)
    (this : WhiteboardStore) : Sync :=
  (set_windowManager windowManager this, []).

Definition updateCurrentSceneIndex (currentSceneIndex : Z)
    (this : WhiteboardStore) : Sync :=
  (set_currentSceneIndex currentSceneIndex this, []).

Definition updateScenesCount (scenesCount : Z) (this : WhiteboardStore) : Sync :=
  (set_scenesCount scenesCount this, []).

Definition updateWindowMaximization (isMaximization : bool)
    (this : WhiteboardStore) : Sync :=
  (set_isWindowMaximization isMaximization this, []).

Definition updateFocusWindow (isFocus : bool) (this : WhiteboardStore) : Sync :=
  (set_isFocusWindow isFocus this, []).

Definition updateBroadcasterMode (isBroadcasterMode : option Z)
    (this : WhiteboardStore) : Sync :=
  (set_isBroadcasterMode isBroadcasterMode this, []).

Definition setFileOpen (open : bool) (this : WhiteboardStore) : Sync :=
  (set_isFileOpen open this, []).

Definition toggleFileOpen (this : WhiteboardStore) : Sync :=
  (set_isFileOpen (negb (isFileOpen this)) this, []).

Definition showPreviewPanel (this : WhiteboardStore) : Sync :=
  (set_isShowPreviewPanel true this, []).

Definition setPreviewPanel (show : bool) (this : WhiteboardStore) : Sync :=
  (set_isShowPreviewPanel show this, []).

Definition setRightSideClose (close : bool) (this : WhiteboardStore) : Sync :=
  (set_isRightSideClose close this, []).

(** [this.windowManager?.broadcaster] *)
Definition windowManager_broadcaster (this : WhiteboardStore) : option Z :=
  match windowManager this with
  | Some wm => broadcaster wm
  | None => None
  end.

Definition toggleMainViewVisionMode (mode : ViewMode) (this : WhiteboardStore)
    : Sync :=
  let called :=
    match windowManager this with
    | Some _ => [windowManager_setViewMode mode]
    | None => []
    end in
  (set_isBroadcasterMode (windowManager_broadcaster this) this, called).

(** ** The write gate *)

(** [this.room] as a condition. *)
Definition has_room (this : WhiteboardStore) : bool :=
  match room this with Some _ => true | None => false end.

(** [updateWritable], up to its [await]. *)
Definition updateWritable (isWritable' : bool) (this : WhiteboardStore) : Step :=
  let oldWritable := isWritable this in
  let this := set_isWritable isWritable' this in
  if negb (Bool.eqb oldWritable isWritable') && has_room this
  then (this, [room_setWritable isWritable'],
        Await (await_room_setWritable isWritable'))
  else (this, [], Return Resolved).

(** What JavaScript throws on [this.room.disableDeviceInputs = ...] when
    [this.room] is [null]. *)
Definition TypeError_null : Error :=
  {| message := "Cannot set properties of null" |}.

(** [updateWritable], from the answer to [room.setWritable] on.  [this.room]
    is read again: the flags go to the handle the store holds by then. *)
Definition updateWritable_k (isWritable' : bool) (answer : Answer)
    (this : WhiteboardStore) : Step :=
  match answer with
  | rejected reason => (this, [], Return (Rejected reason))
  | _ =>
      match room this with
      | Some r =>
          let r := set_disableDeviceInputs (negb isWritable') r in
          let r := if isWritable' then set_disableSerialization false r else r in
          (set_room (Some r) this, [], Return Resolved)
      | None => (this, [], Return (Rejected TypeError_null))
      end
  end.

(** ** Numbers

    A JavaScript [number] is an IEEE 754 double.  The numbers of the store
    are scene indices and scene counts; the model keeps the finite
    integer-valued doubles, each as the integer it denotes.  A sum or a
    difference is the exact result rounded to the nearest double, ties to
    the even significand: exact up to [2^53] in magnitude, and from there on
    a multiple of the spacing of the doubles around the result. *)
Module Number.

(** The double nearest to the integer [z] (of magnitude below [2^1024],
    as every sum or difference of a double and [1] is). *)
Definition round (z : Z) : Z :=
  let a := Z.abs z in
  if a <? 2 ^ 53 then z
  else
    let ulp := 2 ^ (Z.log2 a - 52) in
    let q := a / ulp in
    let r := a mod ulp in
    let half := ulp / 2 in
    let q' :=
      if r <? half then q
      else if half <? r then q + 1
      else if Z.even q then q else q + 1 in
    Z.sgn z * (q' * ulp).


(** [x + y] and [x - y] on doubles. *)
Definition add (x y : Z) : Z := round (x + y).

Definition sub (x y : Z) : Z := round (x - y).

End Number.

Arguments Number.add x y : simpl never.
Arguments Number.sub x y : simpl never.

(** ** The window manager and the scenes of the main view *)

Definition switchMainViewToWriter (this : WhiteboardStore) : Step :=
  match windowManager this with
  | Some _ =>
      if isFocusWindow this
      then (this, [windowManager_switchMainViewToWriter],
            Await await_switchMainViewToWriter)
      else (this, [], Return Resolved)
  | None => (this, [], Return Resolved)
  end.

(** A continuation with nothing left to do but pass a rejection on. *)
Definition propagate (answer : Answer) (this : WhiteboardStore) : Step :=
  match answer with
  | rejected reason => (this, [], Return (Rejected reason))
  | _ => (this, [], Return Resolved)
  end.

(** [s.lastIndexOf("/")]: the position of the last slash, or [-1]. *)
Fixpoint lastIndexOf_slash_from (i : Z) (s : string) : Z :=
  match s with
  | EmptyString => -1
  | String c s' =>
      let later := lastIndexOf_slash_from (i + 1) s' in
      if 0 <=? later then later
      else if Ascii.eqb c "/" then i else -1
  end.

Definition lastIndexOf_slash (s : string) : Z := lastIndexOf_slash_from 0 s.

(** [s.slice(0, e)]: a negative [e] counts from the end. *)
Definition slice0 (s : string) (e : Z) : string :=
  let len := Z.of_nat (String.length s) in
  let e := if e <? 0 then Z.max (len + e) 0 else Z.min e len in
  String.substring 0 (Z.to_nat e) s.

Definition dirName (scenePath : string) : string :=
  slice0 scenePath (lastIndexOf_slash scenePath).

(** The literal [{}] passed to [putScenes]. *)
Definition empty_scene : SceneDefinition := {| name := None; ppt := None |}.

Definition addMainViewScene (this : WhiteboardStore) : Sync :=
  match room this, windowManager this with
  | Some r, Some _ =>
      let currentScene := Number.add (currentSceneIndex this) 1 in
      let scenePath := scenePath (sceneState (state r)) in
      let path := dirName scenePath in
      (this, [room_putScenes path [empty_scene] currentScene;
              windowManager_setMainViewSceneIndex
                (Number.add (currentSceneIndex this) 1)])
  | _, _ => (this, [])
  end.

Definition preMainViewScene (this : WhiteboardStore) : Sync :=
  match windowManager this with
  | Some _ =>
      if 0 <? currentSceneIndex this
      then (this, [windowManager_setMainViewSceneIndex
                     (Number.sub (currentSceneIndex this) 1)])
      else (this, [])
  | None => (this, [])
  end.

Definition nextMainViewScene (this : WhiteboardStore) : Sync :=
  match windowManager this with
  | Some _ =>
      if currentSceneIndex this <? Number.sub (scenesCount this) 1
      then (this, [windowManager_setMainViewSceneIndex
                     (Number.add (currentSceneIndex this) 1)])
      else (this, [])
  | None => (this, [])
  end.

Definition destroyWindowManager (this : WhiteboardStore) : Sync :=
  let called :=
    match windowManager this with
    | Some _ => [windowManager_destroy]
    | None => []
    end in
  (set_windowManager None this, called).

(** [onMainViewModeChange] and [onWindowManagerBoxStateChange] register a
    listener each; the listeners follow. *)
Definition onMainViewModeChange (this : WhiteboardStore) : Sync :=
  match windowManager this with
  | Some _ => (this, [windowManager_emitter_on "mainViewModeChange"])
  | None => (this, [])
  end.

Definition onWindowManagerBoxStateChange (this : WhiteboardStore) : Sync :=
  match windowManager this with
  | Some _ => (this, [windowManager_emitter_on "boxStateChange"])
  | None => (this, [])
  end.

(** [this.room.state.sceneState] copied into the pagination fields. *)
Definition resync_pagination (r : Room) (this : WhiteboardStore)
    : WhiteboardStore :=
  let this := set_currentSceneIndex (index (sceneState (state r))) this in
  set_scenesCount (Z.of_nat (List.length (scenes (sceneState (state r))))) this.

Definition mainViewModeChange_listener (mode : ViewVisionMode.t)
    (this : WhiteboardStore) : Sync :=
  let isWindow := negb (ViewVisionMode.eqb mode ViewVisionMode.Writable) in
  let this := set_isFocusWindow isWindow this in
  match room this with
  | Some r => if negb isWindow then (resync_pagination r this, []) else (this, [])
  | None => (this, [])
  end.

Definition boxStateChange_listener (mode : string) (this : WhiteboardStore)
    : Sync :=
  let isMaximization := String.eqb mode "maximized" in
  (set_isWindowMaximization isMaximization this, []).

(** ** The content insertion gateway *)

(** Strings are sequences of code units; the code units of the model are
    those below 256, one [ascii] each. *)

(** [\s] on these code units: TAB, LF, VT, FF, CR, SPACE and NBSP. *)
Definition isWhiteSpace (c : ascii) : bool :=
  let n := nat_of_ascii c in
  ((9 <=? n) && (n <=? 13) || (n =? 32) || (n =? 160))%nat.

(** [\w]: [A-Za-z0-9_]. *)
Definition isWordChar (c : ascii) : bool :=
  let n := nat_of_ascii c in
  ((65 <=? n) && (n <=? 90) || (97 <=? n) && (n <=? 122)
   || (48 <=? n) && (n <=? 57) || (n =? 95))%nat.

(** A literal of the pattern at the head of [s]: what follows it. *)
Fixpoint literal (lit s : string) : option string :=
  match lit with
  | EmptyString => Some s
  | String a lit' =>
      match s with
      | String b s' => if Ascii.eqb a b then literal lit' s' else None
      | EmptyString => None
      end
  end.

(** The longest run of word characters at the head of [s], and the rest. *)
Fixpoint word_run (s : string) : string * string :=
  match s with
  | String c s' =>
      if isWordChar c
      then let (w, rest) := word_run s' in (String c w, rest)
      else (EmptyString, s)
  | EmptyString => (EmptyString, EmptyString)
  end.

(** [dynamicConvert)\/(?<taskId>\w+)\/] at the head of [s]: the task
    identifier.  [\w+] is greedy; giving characters back never helps, since
    a character given back is a word character and the pattern wants a
    slash next. *)
Definition dynamicConvert_taskId (s : string) : option string :=
  match literal "dynamicConvert/" s with
  | Some s1 =>
      match word_run s1 with
      | (String c w, String "/" _) => Some (String c w)
      | _ => None
      end
  | None => None
  end.

(** [\S+?] and what follows it: the lazy quantifier takes one character
    that is not white space, tries the rest of the pattern, and takes one
    more character each time the rest fails.  The result is the text
    [\S+?] matched and the task identifier. *)
Fixpoint lazy_nonspace (s : string) : option (string * string) :=
  match s with
  | EmptyString => None
  | String c s' =>
      if isWhiteSpace c then None
      else
        match dynamicConvert_taskId s' with
        | Some t => Some (String c EmptyString, t)
        | None =>
            match lazy_nonspace s' with
            | Some (m, t) => Some (String c m, t)
            | None => None
            end
        end
  end.

(** The named groups of a match. *)
Record Groups := {
  groups_prefix : string;
  groups_taskId : string
}.

(** [(?<prefix>:\/\/\S+?dynamicConvert)\/(?<taskId>\w+)\/] at the head of
    [s]. *)
Definition prefix_taskId (s : string) : option Groups :=
  match literal "://" s with
  | Some s1 =>
      match lazy_nonspace s1 with
      | Some (m, t) =>
          Some {| groups_prefix := "://" ++ m ++ "dynamicConvert";
                  groups_taskId := t |}
      | None => None
      end
  | None => None
  end.

(** [pptSrcRE.exec(s)] for
    [/^pptx?(?<prefix>:\/\/\S+?dynamicConvert)\/(?<taskId>\w+)\//]:
    [x?] is greedy and gives the [x] back when the rest fails. *)
Definition pptSrcRE_exec (s : string) : option Groups :=
  match literal "ppt" s with
  | Some s1 =>
      match s1 with
      | String "x" s2 =>
          match prefix_taskId s2 with
          | Some g => Some g
          | None => prefix_taskId s1
          end
      | _ => prefix_taskId s1
      end
  | None => None
  end.

Definition startsWith (s p : string) : bool := String.prefix p s.

(** The object [{ name }]. *)
Definition name_only (sc : SceneDefinition) : SceneDefinition :=
  {| name := name sc; ppt := None |}.

(** The loop of [makeSlideParams]; [scenesWithoutPPT] is the array pushed
    to so far.  The result is [(scenesWithoutPPT, taskId, url)]. *)
Fixpoint makeSlideParams_loop (scenes scenesWithoutPPT : list SceneDefinition)
    : list SceneDefinition * string * string :=
  match scenes with
  | [] => (scenesWithoutPPT, EmptyString, EmptyString)
  | sc :: rest =>
      let scenesWithoutPPT := scenesWithoutPPT ++ [name_only sc] in
      match ppt sc with
      | None => makeSlideParams_loop rest scenesWithoutPPT
      | Some p =>
          if negb (startsWith (src p) "ppt")
          then makeSlideParams_loop rest scenesWithoutPPT
          else
            match pptSrcRE_exec (src p) with
            | None => makeSlideParams_loop rest scenesWithoutPPT
            | Some groups =>
                (scenesWithoutPPT, groups_taskId groups,
                 ("https" ++ groups_prefix groups)%string)
            end
      end
  end.

Definition makeSlideParams (scenes : list SceneDefinition)
    : list SceneDefinition * string * string :=
  makeSlideParams_loop scenes [].

(** Truthiness of a string. *)
Definition nonempty (s : string) : bool := negb (String.eqb s "").

(** [openDocsFileInWindowManager], up to its [await]. *)
Definition openDocsFileInWindowManager (scenePath title : string)
    (scenes : list SceneDefinition) (this : WhiteboardStore) : Step :=
  match windowManager this with
  | Some _ =>
      let '(scenesWithoutPPT, taskId, url) := makeSlideParams scenes in
      if nonempty taskId && nonempty url
      then (this,
            [windowManager_addApp
               {| kind := Slide;
                  options := {| options_scenePath := Some scenePath;
                                options_title := Some title;
                                options_scenes := Some scenesWithoutPPT |};
                  attributes := slide_attributes taskId url |}],
            Await await_addApp_in_try)
      else (this,
            [windowManager_addApp
               {| kind := DocsViewer;
                  options := {| options_scenePath := Some scenePath;
                                options_title := Some title;
                                options_scenes := Some scenes |};
                  attributes := no_attributes |}],
            Await await_addApp_in_try)
  | None => (this, [], Return Resolved)
  end.

(** [openMediaFileInWindowManager], up to its [await]; without a window
    manager [undefined] is awaited and nothing follows. *)
Definition openMediaFileInWindowManager (resourceSrc title : string)
    (this : WhiteboardStore) : Step :=
  match windowManager this with
  | Some _ =>
      (this,
       [windowManager_addApp
          {| kind := MediaPlayer;
             options := {| options_scenePath := None;
                           options_title := Some title;
                           options_scenes := None |};
             attributes := media_attributes resourceSrc |}],
       Await await_addApp_in_try)
  | None => (this, [], Return Resolved)
  end.

(** The [catch] of both: the failure goes to the console and the method
    ends normally. *)
Definition addApp_in_try_k (answer : Answer) (this : WhiteboardStore) : Step :=
  match answer with
  | rejected err => (this, [console_log err], Return Resolved)
  | _ => (this, [], Return Resolved)
  end.

Definition addApp (config : AddAppParams) (this : WhiteboardStore) : Step :=
  match windowManager this with
  | Some _ => (this, [windowManager_addApp config], Await await_addApp)
  | None => (this, [], Return Resolved)
  end.

(** ** Joining the room *)

(** A string known to be there once its truthiness has been checked. *)
Definition the (v : option string) : string :=
  match v with Some s => s | None => EmptyString end.

Definition is_development (p : Platform) : bool :=
  String.eqb (NODE_ENV p) "development".

(** [joinWhiteboardRoom], up to [await whiteWebSdk.joinRoom(...)].  A
    [throw] in an [async] method rejects the promise it returns. *)
Definition joinWhiteboardRoom (g : Globals) (this : WhiteboardStore) : Step :=
  let gs := globalStore g in
  if negb (truthy (userUUID gs))
  then (this, [], Return (Rejected {| message := "Missing userUUID" |}))
  else
    if negb (truthy (whiteboardRoomUUID gs))
       || negb (truthy (whiteboardRoomToken gs))
    then (this, [],
          Return (Rejected {| message := "Missing Whiteboard UUID and Token" |}))
    else
      let deviceType :=
        if isWindows (platform g) then DeviceType.Surface
        else if isMobile (platform g) then DeviceType.Touch
        else DeviceType.Desktop in
      let cursorName := userInfo_name gs in
      (this,
       [new_WhiteWebSdk deviceType;
        new_CursorTool;
        whiteWebSdk_joinRoom
          {| join_uuid := the (whiteboardRoomUUID gs);
             join_roomToken := the (whiteboardRoomToken gs);
             join_region := region gs;
             join_userId := the (userUUID gs);
             join_cursorName := cursorName;
             join_isWritable := isWritable this;
             join_uid := the (userUUID gs) |}],
       Await await_joinRoom).

(** [joinWhiteboardRoom], from the answer of [joinRoom] on. *)
Definition joinWhiteboardRoom_k (g : Globals) (answer : Answer)
    (this : WhiteboardStore) : Step :=
  match answer with
  | rejected reason => (this, [], Return (Rejected reason))
  | fulfilled => (this, [], Return (Rejected TypeError_null))
  | fulfilled_with room0 =>
      let room' := set_disableDeviceInputs (negb (isWritable this)) room0 in
      let this :=
        match broadcastState (state room') with
        | Some b => set_viewMode (Some (mode b)) this
        | None => this
        end in
      let this := set_room (Some room') this in
      let this := set_currentSceneIndex (index (sceneState (state room'))) this in
      let this :=
        set_scenesCount
          (Z.of_nat (List.length (scenes (sceneState (state room'))))) this in
      let this := set_isBroadcasterMode (windowManager_broadcaster this) this in
      let this :=
        match room this with
        | Some r => set_windowManager (getInvisiblePlugin r) this
        | None => this
        end in
      let dev :=
        if is_development (platform g)
        then [window_room_set (Some room'); window_manager_set (windowManager this)]
        else [] in
      (this, cursorAdapter_setRoom room' :: dev, Return Resolved)
  end.

(** ** The callbacks given to [joinRoom] *)

Definition onPhaseChanged (phase : RoomPhase) (this : WhiteboardStore) : Sync :=
  updatePhase phase this.

(** The quiet window of [preloadPPTResource], in milliseconds. *)
Definition preload_wait : N := 2000.

(** [modifyState.sceneState?.scenes[0]?.ppt?.src] *)
Definition first_pptSrc (modifyState : ModifyState) : option string :=
  match modify_sceneState modifyState with
  | Some st =>
      match scenes st with
      | sc :: _ =>
          match ppt sc with
          | Some p => Some (src p)
          | None => None
          end
      | [] => None
      end
  | None => None
  end.

(** The end of [onRoomStateChanged]:
    [this.room && this.windowManager?.mainView.mode === Writable]. *)
Definition roomStateChanged_resync (this : WhiteboardStore) : WhiteboardStore :=
  match room this, windowManager this with
  | Some r, Some wm =>
      if ViewVisionMode.eqb (mainView_mode wm) ViewVisionMode.Writable
      then resync_pagination r this
      else this
  | _, _ => this
  end.

(** [onRoomStateChanged] at instant [now], up to the [await] on the
    debounced preload. *)
Definition onRoomStateChanged (now : N) (modifyState : ModifyState)
    (this : WhiteboardStore) : Step :=
  let this :=
    match modify_broadcastState modifyState with
    | Some b => set_viewMode (Some (mode b)) this
    | None => this
    end in
  let pptSrc := first_pptSrc modifyState in
  if truthy pptSrc
  then
    (set_preloadPPTResource
       (Debounce.call preload_wait now (the pptSrc) (preloadPPTResource this))
       this,
     [], Await await_preloadPPTResource)
  else (roomStateChanged_resync this, [], Return Resolved).

Definition onRoomStateChanged_k (answer : Answer) (this : WhiteboardStore)
    : Step :=
  match answer with
  | rejected err =>
      (roomStateChanged_resync this, [console_log err], Return Resolved)
  | _ => (roomStateChanged_resync this, [], Return Resolved)
  end.

Definition onDisconnectWithError (error : Error) (this : WhiteboardStore)
    : Sync :=
  (set_preloadPPTResource (Debounce.cancel (preloadPPTResource this)) this,
   [console_error error]).

Definition onKickedWithReason (reason : string) (this : WhiteboardStore) : Sync :=
  if String.eqb reason "kickByAdmin"
     || String.eqb reason "roomDelete"
     || String.eqb reason "roomBan"
  then
    if negb (isCreator this)
    then (set_isKicked true this, [])
    else (this, [])
  else (this, []).

(** The function that was debounced: [coursewarePreloader.preload(pptSrc)]. *)
Definition preload (pptSrc : string) : list Effect :=
  [coursewarePreloader_preload pptSrc].

(** The timer of the debounced preload at instant [now]. *)
Definition preload_timer (now : N) (this : WhiteboardStore) : Sync :=
  let fired := Debounce.fire now (preloadPPTResource this) in
  (set_preloadPPTResource (snd fired) this,
   match fst fired with
   | Some pptSrc => preload pptSrc
   | None => []
   end).

(** ** Teardown *)

Definition destroy (g : Globals) (this : WhiteboardStore) : Sync :=
  let this :=
    set_preloadPPTResource (Debounce.cancel (preloadPPTResource this)) this in
  let '(this, destroyed) := destroyWindowManager this in
  let off :=
    match room this with
    | Some _ => [room_callbacks_off]
    | None => []
    end in
  let dev :=
    if is_development (platform g)
    then [window_room_set None; window_manager_set None]
    else [] in
  (this,
   destroyed ++ off ++ dev
   ++ [console_log_unloaded (whiteboardRoomUUID (globalStore g))]).

(** ** Construction *)

Definition new_WhiteboardStore (config_isCreator : bool) : WhiteboardStore :=
  {| room := None;
     phase := Connecting;
     viewMode := None;
     windowManager := None;
     isBroadcasterMode := None;
     isWritable := config_isCreator;
     isShowPreviewPanel := false;
     isFileOpen := false;
     isKicked := false;
     isFocusWindow := false;
     isWindowMaximization := false;
     isRightSideClose := false;
     currentSceneIndex := 0;
     scenesCount := 0;
     isCreator := config_isCreator;
     preloadPPTResource := Debounce.idle |}.

(** ** The session as a machine

    One event at a time: a method of the store is called (by the owner of
    the store, by the SDK for the callbacks, by the emitter of the window
    manager for the listeners), a suspended method is resumed with the
    answer to its request, time passes, or a collaborator changes what the
    store reads of it. *)

Module Call.

Inductive t :=
| updateRoom (room : Room)
| updatePhase (phase : RoomPhase)
| updateViewMode (viewMode : ViewMode)
| updateWritable (isWritable : bool)
| updateWindowManager (windowManager : option WindowManager)
| updateCurrentSceneIndex (currentSceneIndex : Z)
| updateScenesCount (scenesCount : Z)
| updateWindowMaximization (isMaximization : bool)
| updateFocusWindow (isFocus : bool)
| updateBroadcasterMode (isBroadcasterMode : option Z)
| setFileOpen (open : bool)
| toggleFileOpen
| toggleMainViewVisionMode (mode : ViewMode)
| showPreviewPanel
| setPreviewPanel (show : bool)
| setRightSideClose (close : bool)
| switchMainViewToWriter
| addMainViewScene
| preMainViewScene
| nextMainViewScene
| openDocsFileInWindowManager (scenePath title : string)
    (scenes : list SceneDefinition)
| openMediaFileInWindowManager (resourceSrc title : string)
| addApp (config : AddAppParams)
| onMainViewModeChange
| onWindowManagerBoxStateChange
| destroyWindowManager
| joinWhiteboardRoom
| destroy
(* callbacks and listeners *)
| onPhaseChanged (phase : RoomPhase)
| onRoomStateChanged (modifyState : ModifyState)
| onDisconnectWithError (error : Error)
| onKickedWithReason (reason : string)
| mainViewModeChange (mode : ViewVisionMode.t)
| boxStateChange (mode : string).

End Call.

(** A method without [await] runs to its end. *)
Definition sync (r : Sync) : Step := (fst r, snd r, Return Resolved).

Definition run_call (g : Globals) (now : N) (c : Call.t)
    (this : WhiteboardStore) : Step :=
  match c with
  | Call.updateRoom r => sync (updateRoom r this)
  | Call.updatePhase p => sync (updatePhase p this)
  | Call.updateViewMode v => sync (updateViewMode v this)
  | Call.updateWritable b => updateWritable b this
  | Call.updateWindowManager wm => sync (updateWindowManager wm this)
  | Call.updateCurrentSceneIndex i => sync (updateCurrentSceneIndex i this)
  | Call.updateScenesCount n => sync (updateScenesCount n this)
  | Call.updateWindowMaximization b => sync (updateWindowMaximization b this)
  | Call.updateFocusWindow b => sync (updateFocusWindow b this)
  | Call.updateBroadcasterMode o => sync (updateBroadcasterMode o this)
  | Call.setFileOpen b => sync (setFileOpen b this)
  | Call.toggleFileOpen => sync (toggleFileOpen this)
  | Call.toggleMainViewVisionMode v => sync (toggleMainViewVisionMode v this)
  | Call.showPreviewPanel => sync (showPreviewPanel this)
  | Call.setPreviewPanel b => sync (setPreviewPanel b this)
  | Call.setRightSideClose b => sync (setRightSideClose b this)
  | Call.switchMainViewToWriter => switchMainViewToWriter this
  | Call.addMainViewScene => sync (addMainViewScene this)
  | Call.preMainViewScene => sync (preMainViewScene this)
  | Call.nextMainViewScene => sync (nextMainViewScene this)
  | Call.openDocsFileInWindowManager p t s =>
      openDocsFileInWindowManager p t s this
  | Call.openMediaFileInWindowManager r t =>
      openMediaFileInWindowManager r t this
  | Call.addApp config => addApp config this
  | Call.onMainViewModeChange => sync (onMainViewModeChange this)
  | Call.onWindowManagerBoxStateChange =>
      sync (onWindowManagerBoxStateChange this)
  | Call.destroyWindowManager => sync (destroyWindowManager this)
  | Call.joinWhiteboardRoom => joinWhiteboardRoom g this
  | Call.destroy => sync (destroy g this)
  | Call.onPhaseChanged p => sync (onPhaseChanged p this)
  | Call.onRoomStateChanged m => onRoomStateChanged now m this
  | Call.onDisconnectWithError e => sync (onDisconnectWithError e this)
  | Call.onKickedWithReason r => sync (onKickedWithReason r this)
  | Call.mainViewModeChange m => sync (mainViewModeChange_listener m this)
  | Call.boxStateChange m => sync (boxStateChange_listener m this)
  end.

Definition resume (g : Globals) (k : Cont) (answer : Answer)
    (this : WhiteboardStore) : Step :=
  match k with
  | await_room_setWritable b => updateWritable_k b answer this
  | await_switchMainViewToWriter => propagate answer this
  | await_addApp_in_try => addApp_in_try_k answer this
  | await_addApp => propagate answer this
  | await_joinRoom => joinWhiteboardRoom_k g answer this
  | await_preloadPPTResource => onRoomStateChanged_k answer this
  end.

Inductive Event :=
| invoke (c : Call.t)
| settle (n : nat) (answer : Answer)
| elapse (ms : N)
| room_state_is (st : RoomState)
| window_manager_is (wm : WindowManager).

Record Machine := {
  store : WhiteboardStore;
  suspended : list Cont;       (* the methods waiting at an await, oldest first *)
  clock : N;                   (* milliseconds *)
  calls : list Effect          (* every call on a collaborator so far *)
}.

Definition boot (config_isCreator : bool) : Machine :=
  {| store := new_WhiteboardStore config_isCreator;
     suspended := [];
     clock := 0;
     calls := [] |}.

Fixpoint remove_nth {A} (n : nat) (l : list A) : list A :=
  match l, n with
  | [], _ => []
  | _ :: l', O => l'
  | x :: l', S n' => x :: remove_nth n' l'
  end.

(** The machine after a method ran or was resumed. *)
Definition after (m : Machine) (waiting : list Cont) (r : Step) : Machine :=
  let '(this, called, a) := r in
  {| store := this;
     suspended :=
       match a with
       | Await k => waiting ++ [k]
       | Return _ => waiting
       end;
     clock := clock m;
     calls := calls m ++ called |}.

Definition set_state (st : RoomState) (r : Room) : Room :=
  {| disableDeviceInputs := disableDeviceInputs r;
     disableSerialization := disableSerialization r;
     state := st;
     getInvisiblePlugin := getInvisiblePlugin r |}.

Definition step (g : Globals) (m : Machine) (e : Event) : Machine :=
  match e with
  | invoke c => after m (suspended m) (run_call g (clock m) c (store m))
  | settle n answer =>
      match nth_error (suspended m) n with
      | Some k =>
          after m (remove_nth n (suspended m)) (resume g k answer (store m))
      | None => m
      end
  | elapse ms =>
      let now := (clock m + ms)%N in
      let timer := preload_timer now (store m) in
      {| store := fst timer;
         suspended := suspended m;
         clock := now;
         calls := calls m ++ snd timer |}
  | room_state_is st =>
      {| store :=
           match room (store m) with
           | Some r => set_room (Some (set_state st r)) (store m)
           | None => store m
           end;
         suspended := suspended m;
         clock := clock m;
         calls := calls m |}
  | window_manager_is wm =>
      {| store :=
           match windowManager (store m) with
           | Some _ => set_windowManager (Some wm) (store m)
           | None => store m
           end;
         suspended := suspended m;
         clock := clock m;
         calls := calls m |}
  end.

Definition run (g : Globals) (m : Machine) (events : list Event) : Machine :=
  fold_left (step g) events m.

(** * Vocabulary of the statements

    Sample values on which the definitions are run, the observations the
    theorems make of a list of calls or of a machine, and the tactics shared
    by the proofs. *)

Definition sample_scene_state : SceneState :=
  {| scenes := [empty_scene; empty_scene; empty_scene];
     scenePath := "/init";
     index := 0 |}.

Definition sample_manager : WindowManager :=
  {| mainView_mode := ViewVisionMode.Writable; broadcaster := None |}.

(** A room as the SDK hands it over, with serialization still disabled. *)
Definition sample_room : Room :=
  {| disableDeviceInputs := false;
     disableSerialization := true;
     state := {| broadcastState := None; sceneState := sample_scene_state |};
     getInvisiblePlugin := Some sample_manager |}.

Definition sample_globals : Globals :=
  {| globalStore :=
       {| userUUID := Some "user-1";
          whiteboardRoomUUID := Some "room-1";
          whiteboardRoomToken := Some "token-1";
          region := None;
          userInfo_name := Some "Ada" |};
     platform :=
       {| isWindows := false; isMobile := false; NODE_ENV := "production" |} |}.

(** A participant who is not the creator, after a completed join. *)
Definition joined : Machine :=
  run sample_globals (boot false)
    [invoke Call.joinWhiteboardRoom; settle 0 (fulfilled_with sample_room)].



Definition qualifying_reason (reason : string) : Prop :=
  reason = "kickByAdmin" \/ reason = "roomDelete" \/ reason = "roomBan".

(** Case analysis on the innermost condition the goal is stuck on. *)
Ltac break_match :=
  match goal with
  | |- context [match ?x with _ => _ end] =>
      lazymatch x with
      | context [match _ with _ => _ end] => fail
      | _ => destruct x eqn:?
      end
  end.

Ltac unfold_methods :=
  unfold sync, updateRoom, updatePhase, updateViewMode, updateWritable,
    updateWindowManager, updateCurrentSceneIndex, updateScenesCount,
    updateWindowMaximization, updateFocusWindow, updateBroadcasterMode,
    setFileOpen, toggleFileOpen, toggleMainViewVisionMode, showPreviewPanel,
    setPreviewPanel, setRightSideClose, switchMainViewToWriter,
    addMainViewScene, preMainViewScene, nextMainViewScene,
    openDocsFileInWindowManager, openMediaFileInWindowManager, addApp,
    onMainViewModeChange, onWindowManagerBoxStateChange,
    destroyWindowManager, joinWhiteboardRoom, destroy, onPhaseChanged,
    onRoomStateChanged, onDisconnectWithError, onKickedWithReason,
    mainViewModeChange_listener, boxStateChange_listener,
    updateWritable_k, propagate, addApp_in_try_k, joinWhiteboardRoom_k,
    onRoomStateChanged_k, roomStateChanged_resync, resync_pagination,
    preload_timer, Debounce.fire in *.

(** Closes a goal about one field of the store after one method. *)
Ltac field_after_method :=
  unfold_methods; simpl; repeat (break_match; simpl in *);
  try reflexivity; try congruence; auto.

(** The sources handed to [coursewarePreloader.preload], in order. *)
Fixpoint preloads (called : list Effect) : list string :=
  match called with
  | [] => []
  | coursewarePreloader_preload pptSrc :: rest => pptSrc :: preloads rest
  | _ :: rest => preloads rest
  end.

(** What the timer sees of a machine: the debounced function, the clock and
    the preloads run so far. *)
Definition View : Type := Debounced * N * list string.

Definition timer_view (m : Machine) : View :=
  (preloadPPTResource (store m), clock m, preloads (calls m)).

Definition view_request (pptSrc : string) (v : View) : View :=
  (Debounce.call preload_wait (snd (fst v)) pptSrc (fst (fst v)),
   snd (fst v), snd v).

Definition view_elapse (ms : N) (v : View) : View :=
  let fired := Debounce.fire (snd (fst v) + ms) (fst (fst v)) in
  (snd fired, (snd (fst v) + ms)%N,
   snd v ++ match fst fired with Some pptSrc => [pptSrc] | None => [] end).

Definition view_cancel (v : View) : View :=
  (Debounce.idle, snd (fst v), snd v).

Definition sample_modifyState (pptSrc : string) : ModifyState :=
  {| modify_broadcastState := None;
     modify_sceneState :=
       Some {| scenes :=
                 [{| name := Some "1";
                     ppt := Some {| src := pptSrc; width := 1280;
                                    height := 720; previewURL := None |} |}];
               scenePath := "/deck/1";
               index := 0 |} |}.

(** A scene whose source matches the pattern of a document under dynamic
    conversion. *)
Definition matches_pattern (sc : SceneDefinition) : bool :=
  match ppt sc with
  | Some p =>
      match pptSrcRE_exec (src p) with
      | Some _ => true
      | None => false
      end
  | None => false
  end.

Definition example_src : string :=
  "pptx://cdn.example.com/prefix/dynamicConvert/TASK123/1.slide".

Fixpoint all_chars (f : ascii -> bool) (s : string) : bool :=
  match s with
  | EmptyString => true
  | String c s' => f c && all_chars f s'
  end.

(** What [/^pptx?(?<prefix>:\/\/\S+?dynamicConvert)\/(?<taskId>\w+)\//]
    accepts, with its two groups: [mid] is the text of [\S+?]. *)
Definition pattern_accepts (s prefix taskId : string) : Prop :=
  exists x mid rest,
    (x = "" \/ x = "x")
    /\ s = ("ppt" ++ x ++ "://" ++ mid ++ "dynamicConvert/" ++ taskId ++ "/"
            ++ rest)%string
    /\ prefix = ("://" ++ mid ++ "dynamicConvert")%string
    /\ mid <> "" /\ all_chars (fun c => negb (isWhiteSpace c)) mid = true
    /\ taskId <> "" /\ all_chars isWordChar taskId = true.

(** The value the last [updateWritable] among the events asked for, or
    [initial] when there was none. *)
Definition last_requested (events : list Event) (initial : bool) : bool :=
  fold_left
    (fun w e =>
       match e with
       | invoke (Call.updateWritable b) => b
       | _ => w
       end)
    events initial.

(** The flags of the room agree with the stored value: device inputs are
    disabled exactly when the store is not writable, and serialization is
    enabled when it is. *)
Definition gate_agrees (this : WhiteboardStore) : bool :=
  match room this with
  | Some r =>
      Bool.eqb (disableDeviceInputs r) (negb (isWritable this))
      && implb (isWritable this) (negb (disableSerialization r))
  | None => true
  end.

(** The owner awaits each call: the request, if one is made, is answered
    (and accepted) before anything else happens. *)
Definition awaited (b : bool) : list Event :=
  [invoke (Call.updateWritable b); settle 0 fulfilled].

(** A method waits for [room.setWritable] only while the store holds a
    room. *)
Definition waits_with_room (m : Machine) : Prop :=
  (exists b, In (await_room_setWritable b) (suspended m)) ->
  has_room (store m) = true.


(** A string without a slash. *)
Definition no_slash (s : string) : bool :=
  all_chars (fun c => negb (Ascii.eqb c "/")) s.

(** A room showing the second of two scenes of a deck, and a store that
    holds it. *)
Definition sample_deck_room : Room :=
  set_state
    {| broadcastState := None;
       sceneState :=
         {| scenes := [empty_scene; empty_scene];
            scenePath := "/courseware/deck-1/2";
            index := 1 |} |}
    sample_room.

Definition sample_deck_store : WhiteboardStore :=
  set_room (Some sample_deck_room) (set_currentSceneIndex 1 (store joined)).

(** A kick notification with one of the three reasons the store acts on. *)
Definition is_qualifying_kick (e : Event) : bool :=
  match e with
  | invoke (Call.onKickedWithReason reason) =>
      String.eqb reason "kickByAdmin"
      || String.eqb reason "roomDelete"
      || String.eqb reason "roomBan"
  | _ => false
  end.

(** The three credentials [joinWhiteboardRoom] checks, all usable. *)
Definition credentials (gs : GlobalStore) : bool :=
  truthy (userUUID gs)
  && truthy (whiteboardRoomUUID gs)
  && truthy (whiteboardRoomToken gs).

(** The methods that only drive the window manager (and, for
    [addMainViewScene], the room). *)
Definition window_command (c : Call.t) : bool :=
  match c with
  | Call.switchMainViewToWriter
  | Call.addMainViewScene
  | Call.preMainViewScene
  | Call.nextMainViewScene
  | Call.openDocsFileInWindowManager _ _ _
  | Call.openMediaFileInWindowManager _ _
  | Call.addApp _
  | Call.onMainViewModeChange
  | Call.onWindowManagerBoxStateChange => true
  | _ => false
  end.

(** The continuations of those methods. *)
Definition window_continuation (k : Cont) : bool :=
  match k with
  | await_switchMainViewToWriter | await_addApp_in_try | await_addApp => true
  | _ => false
  end.

(** The calls [joinWhiteboardRoom] makes before it waits, for a store whose
    [isWritable] is [w]. *)
Definition join_calls (g : Globals) (w : bool) : list Effect :=
  [new_WhiteWebSdk
     (if isWindows (platform g) then DeviceType.Surface
      else if isMobile (platform g) then DeviceType.Touch
      else DeviceType.Desktop);
   new_CursorTool;
   whiteWebSdk_joinRoom
     {| join_uuid := the (whiteboardRoomUUID (globalStore g));
        join_roomToken := the (whiteboardRoomToken (globalStore g));
        join_region := region (globalStore g);
        join_userId := the (userUUID (globalStore g));
        join_cursorName := userInfo_name (globalStore g);
        join_isWritable := w;
        join_uid := the (userUUID (globalStore g)) |}].

(** [updateWritable] called once for each value, one call after the
    other. *)
Definition updateWritable_calls (bs : list bool) : list Event :=
  map (fun b => invoke (Call.updateWritable b)) bs.

(** ** Pagination *)

Definition in_boundsb (i count : Z) : bool :=
  (0 <=? i) && (i <=? count - 1).

(** A scene state whose index points at one of its scenes. *)
Definition scene_state_ok (st : SceneState) : bool :=
  in_boundsb (index st) (Z.of_nat (List.length (scenes st))).

(** The pagination fields are as constructed, [0] and [0], or the index
    points at one of [scenesCount] scenes. *)
Definition pagination_ok (this : WhiteboardStore) : bool :=
  (currentSceneIndex this =? 0) && (scenesCount this =? 0)
  || in_boundsb (currentSceneIndex this) (scenesCount this).

Definition room_ok (this : WhiteboardStore) : bool :=
  match room this with
  | Some r => scene_state_ok (sceneState (state r))
  | None => true
  end.

(** The events of a session in which the pagination fields are written by
    the store alone (not through the two bare setters) and every scene
    state the SDK shows is well formed. *)
Definition event_ok (e : Event) : bool :=
  match e with
  | invoke (Call.updateCurrentSceneIndex _) => false
  | invoke (Call.updateScenesCount _) => false
  | invoke (Call.updateRoom r) => scene_state_ok (sceneState (state r))
  | settle _ (fulfilled_with r) => scene_state_ok (sceneState (state r))
  | room_state_is st => scene_state_ok (sceneState st)
  | _ => true
  end.

(** Closes the two halves of the pagination invariant after one method. *)
Ltac pagination_finish :=
  try congruence;
  repeat match goal with
         | H : Some _ = Some _ |- _ => inversion H; subst; clear H
         end;
  split; try assumption; try reflexivity; try congruence;
  unfold pagination_ok, scene_state_ok in *; simpl in *;
  try assumption;
  repeat match goal with
         | H : in_boundsb _ _ = true |- _ => rewrite H
         end;
  rewrite ?Bool.orb_true_r; try reflexivity; try congruence.

(** ** Preload requests *)

(** A room-state notification that asks for a preload: its first scene
    carries a non-empty source. *)
Definition requests_preload (e : Event) : bool :=
  match e with
  | invoke (Call.onRoomStateChanged modifyState) =>
      truthy (first_pptSrc modifyState)
  | _ => false
  end.

(** A room-state notification whose first scene has source [pptSrc]. *)
Definition preload_request (pptSrc : string) : Event :=
  invoke (Call.onRoomStateChanged (sample_modifyState pptSrc)).

(** Requests, each followed by a wait. *)
Definition burst (requests : list (string * N)) : list Event :=
  flat_map (fun r => [preload_request (fst r); elapse (snd r)]) requests.

(** A join on the deck, a scene added, the SDK showing the new scene, the
    store told of it, and a step past the last scene. *)
Definition sample_session : list Event :=
  [invoke Call.joinWhiteboardRoom;
   settle 0 (fulfilled_with sample_deck_room);
   invoke Call.addMainViewScene;
   room_state_is
     {| broadcastState := None;
        sceneState :=
          {| scenes := [empty_scene; empty_scene; empty_scene];
             scenePath := "/courseware/deck-1/3";
             index := 2 |} |};
   invoke (Call.onRoomStateChanged
             {| modify_broadcastState := None; modify_sceneState := None |});
   invoke Call.nextMainViewScene].

(** Notifications without a source, navigation and long waits. *)
Definition sample_quiet_session : list Event :=
  [invoke (Call.onRoomStateChanged
             {| modify_broadcastState := Some {| mode := Follower |};
                modify_sceneState := Some sample_scene_state |});
   elapse 5000; invoke Call.addMainViewScene; elapse 5000].

(** ** Requests to the room *)



(** Device inputs of the room held are disabled exactly when the store is
    not writable. *)
Definition inputs_agree (this : WhiteboardStore) : bool :=
  match room this with
  | Some r => Bool.eqb (disableDeviceInputs r) (negb (isWritable this))
  | None => true
  end.

(** * Properties *)

(** ** Assignments *)

Lemma set_isWritable_same (this : WhiteboardStore) :
  set_isWritable (isWritable this) this = this.
Proof. destruct this; reflexivity. Qed.

Lemma set_room_same (this : WhiteboardStore) :
  set_room (room this) this = this.
Proof. destruct this; reflexivity. Qed.

(** ** The write gate, one call at a time *)

(** C4: [updateWritable] called with the value the store already holds makes
    no request to the room, returns a resolved promise at once and leaves the
    store, and with it the flags of the room it holds, as they were; this
    for every stored value and whether or not a room is held. *)
Theorem updateWritable_same_value_noop (this : WhiteboardStore) :
  updateWritable (isWritable this) this = (this, [], Return Resolved).
Proof.
  unfold updateWritable.
  rewrite set_isWritable_same, Bool.eqb_reflx.
  reflexivity.
Qed.

(** C3: when [updateWritable next] changes the stored value and a room is
    held, the store takes [next] at once and the request is made; if the
    request fails, the promise of the caller is rejected with that very
    reason and the continuation leaves the store, whatever it holds by
    then, untouched: nothing puts the previous value back. *)
Theorem updateWritable_rejection_keeps_next (g : Globals)
    (this : WhiteboardStore) (r : Room) (next : bool) (reason : Error)
    (Hroom : room this = Some r) (Hnext : next <> isWritable this) :
  let '(called_this, called, a) := updateWritable next this in
  isWritable called_this = next
  /\ called = [room_setWritable next]
  /\ a = Await (await_room_setWritable next)
  /\ (forall later : WhiteboardStore,
        resume g (await_room_setWritable next) (rejected reason) later
        = (later, [], Return (Rejected reason))).
Proof.
  unfold updateWritable, has_room.
  destruct this as [rm ph vm wm bm w pp fo k fw mx rs ci sc cr pl];
    simpl in *; subst rm.
  assert (Bool.eqb w next = false) as ->.
  { apply Bool.eqb_false_iff. congruence. }
  simpl. repeat split.
Qed.

Lemma updateWritable_rejection_keeps_next_witness :
  let this := store joined in
  let '(called_this, called, a) := updateWritable true this in
  isWritable called_this = true
  /\ called = [room_setWritable true]
  /\ a = Await (await_room_setWritable true)
  /\ (forall later : WhiteboardStore,
        resume sample_globals (await_room_setWritable true)
          (rejected {| message := "refused" |}) later
        = (later, [], Return (Rejected {| message := "refused" |}))).
Proof.
  exact (updateWritable_rejection_keeps_next sample_globals (store joined)
           (set_disableDeviceInputs true sample_room) true
           {| message := "refused" |} eq_refl
           (fun H : true = false => Bool.diff_true_false H)).
Defined.

(** ** Joining without credentials *)

(** C9: when the user identifier, the room identifier or the room token is
    absent ([null], [undefined], or empty, which JavaScript treats alike),
    [joinWhiteboardRoom] ends at once with a rejected promise:
    "Missing userUUID" when the user identifier is not usable, "Missing
    Whiteboard UUID and Token" otherwise.  Nothing is called on any
    collaborator (no SDK is constructed, no join request is made) and the
    store is untouched. *)
Theorem joinWhiteboardRoom_missing_credentials
    (g : Globals) (this : WhiteboardStore)
    (Habsent : truthy (userUUID (globalStore g)) = false
               \/ truthy (whiteboardRoomUUID (globalStore g)) = false
               \/ truthy (whiteboardRoomToken (globalStore g)) = false) :
  joinWhiteboardRoom g this
  = (this, [],
     Return (Rejected
       {| message :=
            if truthy (userUUID (globalStore g))
            then "Missing Whiteboard UUID and Token"
            else "Missing userUUID" |})).
Proof.
  unfold joinWhiteboardRoom.
  destruct (truthy (userUUID (globalStore g))) eqn:Huser; simpl.
  - destruct Habsent as [H | [H | H]]; [discriminate | |];
      rewrite H; simpl; rewrite ?Bool.orb_true_r; reflexivity.
  - reflexivity.
Qed.

Lemma joinWhiteboardRoom_missing_credentials_witness :
  let g :=
    {| globalStore :=
         {| userUUID := Some "user-1";
            whiteboardRoomUUID := Some "room-1";
            whiteboardRoomToken := None;
            region := None;
            userInfo_name := None |};
       platform := platform sample_globals |} in
  joinWhiteboardRoom g (new_WhiteboardStore true)
  = (new_WhiteboardStore true, [],
     Return (Rejected {| message := "Missing Whiteboard UUID and Token" |})).
Proof.
  exact (joinWhiteboardRoom_missing_credentials
           {| globalStore :=
                {| userUUID := Some "user-1";
                   whiteboardRoomUUID := Some "room-1";
                   whiteboardRoomToken := None;
                   region := None;
                   userInfo_name := None |};
              platform := platform sample_globals |}
           (new_WhiteboardStore true)
           (or_intror (or_intror eq_refl))).
Defined.

(** ** Failures of the window manager while opening content *)

(** C10: [openDocsFileInWindowManager] and [openMediaFileInWindowManager]
    leave the store as it is; without a window manager they end at once with
    a resolved promise, with one they wait for [addApp] inside the [try].
    Whatever the window manager answers there, and whatever the store has
    become meanwhile, the continuation ends with a resolved promise and an
    unchanged store; a failure is written to the console and to nothing
    else. *)
Theorem open_content_never_rejects
    (g : Globals) (this : WhiteboardStore)
    (scenePath title resourceSrc : string) (scenes : list SceneDefinition) :
  let docs := openDocsFileInWindowManager scenePath title scenes this in
  let media := openMediaFileInWindowManager resourceSrc title this in
  let expected :=
    match windowManager this with
    | Some _ => Await await_addApp_in_try
    | None => Return Resolved
    end in
  fst (fst docs) = this /\ snd docs = expected
  /\ fst (fst media) = this /\ snd media = expected
  /\ (forall (later : WhiteboardStore) (answer : Answer),
        resume g await_addApp_in_try answer later
        = (later,
           match answer with
           | rejected err => [console_log err]
           | _ => []
           end,
           Return Resolved)).
Proof.
  cbv zeta.
  unfold openDocsFileInWindowManager, openMediaFileInWindowManager.
  destruct (windowManager this).
  - destruct (makeSlideParams scenes) as [[without taskId] url].
    destruct (nonempty taskId && nonempty url); simpl;
      repeat split; destruct answer; reflexivity.
  - simpl. repeat split; destruct answer; reflexivity.
Qed.

(** ** Scene navigation *)





(** ** Kick notifications *)

Lemma qualifying_reason_test (reason : string) :
  String.eqb reason "kickByAdmin" || String.eqb reason "roomDelete"
  || String.eqb reason "roomBan" = true
  <-> qualifying_reason reason.
Proof.
  unfold qualifying_reason.
  rewrite !Bool.orb_true_iff, !String.eqb_eq. tauto.
Qed.

(** ** What the methods leave alone *)

Lemma run_call_isCreator g now c this :
  isCreator (fst (fst (run_call g now c this))) = isCreator this.
Proof. destruct c; simpl; field_after_method. Qed.

Lemma resume_isCreator g k answer this :
  isCreator (fst (fst (resume g k answer this))) = isCreator this.
Proof. destruct k; simpl; field_after_method. Qed.

Lemma store_after m waiting r : store (after m waiting r) = fst (fst r).
Proof. destruct r as [[this called] a]. reflexivity. Qed.

Lemma step_isCreator g m e :
  isCreator (store (step g m e)) = isCreator (store m).
Proof.
  destruct e; simpl.
  - rewrite store_after. apply run_call_isCreator.
  - destruct (nth_error (suspended m) n); [| reflexivity].
    rewrite store_after. apply resume_isCreator.
  - field_after_method.
  - destruct (room (store m)); reflexivity.
  - destruct (windowManager (store m)); reflexivity.
Qed.

Lemma run_app g m es1 es2 : run g m (es1 ++ es2) = run g (run g m es1) es2.
Proof. apply fold_left_app. Qed.

(** Induction over the events from the last one back. *)
Lemma run_snoc g m es e : run g m (es ++ [e]) = step g (run g m es) e.
Proof. rewrite run_app. reflexivity. Qed.

Lemma run_isCreator g m es :
  isCreator (store (run g m es)) = isCreator (store m).
Proof.
  induction es as [| e es IH] using rev_ind; [reflexivity |].
  rewrite run_snoc, step_isCreator. exact IH.
Qed.

(** A creator is never marked as kicked. *)
Lemma run_call_creator_not_kicked g now c this :
  isCreator this = true -> isKicked this = false ->
  isKicked (fst (fst (run_call g now c this))) = false.
Proof.
  intros Hc Hk.
  destruct c; simpl; unfold_methods; try rewrite Hc; field_after_method.
Qed.

Lemma resume_isKicked g k answer this :
  isKicked (fst (fst (resume g k answer this))) = isKicked this.
Proof. destruct k; simpl; field_after_method. Qed.

Lemma step_creator_not_kicked g m e :
  isCreator (store m) = true -> isKicked (store m) = false ->
  isKicked (store (step g m e)) = false.
Proof.
  intros Hc Hk. destruct e; simpl.
  - rewrite store_after. now apply run_call_creator_not_kicked.
  - destruct (nth_error (suspended m) n); [| assumption].
    rewrite store_after, resume_isKicked. assumption.
  - field_after_method.
  - destruct (room (store m)); assumption.
  - destruct (windowManager (store m)); assumption.
Qed.

Lemma run_creator_not_kicked g m es :
  isCreator (store m) = true -> isKicked (store m) = false ->
  isKicked (store (run g m es)) = false.
Proof.
  intros Hc Hk.
  induction es as [| e es IH] using rev_ind; [assumption |].
  rewrite run_snoc. apply step_creator_not_kicked; [| exact IH].
  rewrite run_isCreator. exact Hc.
Qed.

(** C7: a kick notification whose reason is "kickByAdmin", "roomDelete" or
    "roomBan" sets [isKicked] in the store of a participant who is not the
    creator, and leaves the store of the creator as it is; whatever the
    creator's session went through before, its [isKicked] is [false] before
    and after the notification.  A notification with any other reason
    changes nothing, for creator and participant alike. *)
Theorem onKickedWithReason_spares_creator
    (g : Globals) (reason : string) (this : WhiteboardStore) :
  (qualifying_reason reason -> isCreator this = false ->
   isKicked (fst (onKickedWithReason reason this)) = true)
  /\ (qualifying_reason reason -> isCreator this = true ->
      onKickedWithReason reason this = (this, []))
  /\ (forall events,
        let m := run g (boot true) events in
        isKicked (store m) = false
        /\ isKicked
             (store (step g m (invoke (Call.onKickedWithReason reason))))
           = false)
  /\ (~ qualifying_reason reason ->
      onKickedWithReason reason this = (this, [])).
Proof.
  unfold onKickedWithReason.
  repeat split.
  - intros Hq Hc. apply qualifying_reason_test in Hq.
    rewrite Hq, Hc. reflexivity.
  - intros Hq Hc. apply qualifying_reason_test in Hq.
    rewrite Hq, Hc. reflexivity.
  - apply run_creator_not_kicked; reflexivity.
  - apply step_creator_not_kicked.
    + rewrite run_isCreator. reflexivity.
    + apply run_creator_not_kicked; reflexivity.
  - intros Hq.
    destruct (String.eqb reason "kickByAdmin" || String.eqb reason "roomDelete"
              || String.eqb reason "roomBan") eqn:Htest; [| reflexivity].
    apply qualifying_reason_test in Htest. contradiction.
Qed.

Lemma onKickedWithReason_spares_creator_witness :
  isKicked (fst (onKickedWithReason "kickByAdmin" (store joined))) = true
  /\ onKickedWithReason "kickByAdmin" (new_WhiteboardStore true)
     = (new_WhiteboardStore true, [])
  /\ onKickedWithReason "left" (store joined) = (store joined, []).
Proof.
  assert (Hq : qualifying_reason "kickByAdmin") by (left; reflexivity).
  destruct (onKickedWithReason_spares_creator sample_globals "kickByAdmin"
              (store joined)) as [Hjoiner _].
  destruct (onKickedWithReason_spares_creator sample_globals "kickByAdmin"
              (new_WhiteboardStore true)) as [_ [Hcreator _]].
  destruct (onKickedWithReason_spares_creator sample_globals "left"
              (store joined)) as [_ [_ [_ Hother]]].
  split; [| split].
  - exact (Hjoiner Hq eq_refl).
  - exact (Hcreator Hq eq_refl).
  - apply Hother. intros [H | [H | H]]; discriminate H.
Defined.

(** ** The debounced preload *)

Lemma preloads_app l1 l2 : preloads (l1 ++ l2) = preloads l1 ++ preloads l2.
Proof.
  induction l1 as [| e l1 IH]; [reflexivity |].
  destruct e; simpl; rewrite ?IH; reflexivity.
Qed.

Lemma request_view g m modifyState pptSrc :
  first_pptSrc modifyState = Some pptSrc -> pptSrc <> "" ->
  timer_view (step g m (invoke (Call.onRoomStateChanged modifyState)))
  = view_request pptSrc (timer_view m).
Proof.
  intros Hsrc Hne. unfold timer_view, view_request. simpl.
  unfold onRoomStateChanged. rewrite Hsrc. simpl.
  apply String.eqb_neq in Hne. rewrite Hne. simpl.
  rewrite app_nil_r. reflexivity.
Qed.

Lemma elapse_view g m ms :
  timer_view (step g m (elapse ms)) = view_elapse ms (timer_view m).
Proof.
  unfold timer_view, view_elapse. simpl. rewrite preloads_app.
  destruct (fst (Debounce.fire (clock m + ms) (preloadPPTResource (store m))));
    reflexivity.
Qed.

Lemma disconnect_view g m error :
  timer_view (step g m (invoke (Call.onDisconnectWithError error)))
  = view_cancel (timer_view m).
Proof.
  unfold timer_view, view_cancel. simpl.
  rewrite preloads_app, app_nil_r. reflexivity.
Qed.

Lemma destroy_view g m :
  timer_view (step g m (invoke Call.destroy)) = view_cancel (timer_view m).
Proof.
  unfold timer_view, view_cancel. simpl. unfold destroyWindowManager. simpl.
  rewrite !preloads_app.
  destruct (windowManager (store m)), (room (store m)),
    (is_development (platform g)); simpl; rewrite ?app_nil_r; reflexivity.
Qed.

Lemma fire_early wait now ms arg d :
  (ms < wait)%N ->
  Debounce.fire (now + ms) (Debounce.call wait now arg d)
  = (None, Debounce.call wait now arg d).
Proof.
  intros H. unfold Debounce.fire, Debounce.call. simpl.
  destruct (N.leb_spec (now + wait) (now + ms)); [lia | reflexivity].
Qed.

Lemma fire_due wait now ms arg d :
  (wait <= ms)%N ->
  Debounce.fire (now + ms) (Debounce.call wait now arg d)
  = (Some arg, Debounce.idle).
Proof.
  intros H. unfold Debounce.fire, Debounce.call. simpl.
  destruct (N.leb_spec (now + wait) (now + ms)); [reflexivity | lia].
Qed.

Lemma fire_idle now : Debounce.fire now Debounce.idle = (None, Debounce.idle).
Proof. reflexivity. Qed.

(** A request and a wait shorter than the quiet window: the request is
    still pending. *)
Lemma view_request_early pptSrc ms v :
  (ms < preload_wait)%N ->
  view_elapse ms (view_request pptSrc v)
  = (Debounce.call preload_wait (snd (fst v)) pptSrc (fst (fst v)),
     (snd (fst v) + ms)%N, snd v).
Proof.
  intros H. unfold view_elapse, view_request. cbn [fst snd].
  rewrite fire_early by exact H. cbn [fst snd].
  rewrite app_nil_r. reflexivity.
Qed.

(** A request and a wait of the quiet window or longer: the preload has
    run. *)
Lemma view_request_due pptSrc ms v :
  (preload_wait <= ms)%N ->
  view_elapse ms (view_request pptSrc v)
  = (Debounce.idle, (snd (fst v) + ms)%N, snd v ++ [pptSrc]).
Proof.
  intros H. unfold view_elapse, view_request. cbn [fst snd].
  rewrite fire_due by exact H. reflexivity.
Qed.

Lemma view_idle_elapse ms t ps :
  view_elapse ms (Debounce.idle, t, ps) = (Debounce.idle, (t + ms)%N, ps).
Proof.
  unfold view_elapse. cbn [fst snd]. rewrite fire_idle. cbn [fst snd].
  rewrite app_nil_r. reflexivity.
Qed.

Lemma view_pending_elapse ms pptSrc t0 t ps :
  (t + ms < t0 + preload_wait)%N ->
  view_elapse ms (Debounce.call preload_wait t0 pptSrc Debounce.idle, t, ps)
  = (Debounce.call preload_wait t0 pptSrc Debounce.idle, (t + ms)%N, ps).
Proof.
  intros H. unfold view_elapse, Debounce.fire, Debounce.call. cbn [fst snd scheduled].
  destruct (N.leb_spec (t0 + preload_wait) (t + ms)); [lia |].
  cbn [fst snd]. rewrite app_nil_r. reflexivity.
Qed.

Lemma call_forgets wait now arg d :
  Debounce.call wait now arg d = Debounce.call wait now arg Debounce.idle.
Proof. reflexivity. Qed.

(** C6: two preload requests less than the quiet window apart run exactly
    one preload, on the source of the second request, once the quiet window
    has elapsed after it, and nothing more however long one waits; a
    preload request followed within the quiet window by a cancel (the
    disconnect callback or [destroy]) runs none, however long one waits.
    Requests reach the debounced function through [onRoomStateChanged]. *)
Theorem debounced_preload_coalesces_and_cancels
    (g : Globals) (m : Machine) (first second : ModifyState)
    (src1 src2 : string) (gap quiet more : N) (error : Error)
    (Hfirst : first_pptSrc first = Some src1) (Hsrc1 : src1 <> "")
    (Hsecond : first_pptSrc second = Some src2) (Hsrc2 : src2 <> "")
    (Hgap : (gap < preload_wait)%N) :
  let twice :=
    [invoke (Call.onRoomStateChanged first); elapse gap;
     invoke (Call.onRoomStateChanged second); elapse quiet; elapse more] in
  let disconnected :=
    [invoke (Call.onRoomStateChanged first); elapse gap;
     invoke (Call.onDisconnectWithError error); elapse quiet] in
  let destroyed :=
    [invoke (Call.onRoomStateChanged first); elapse gap;
     invoke Call.destroy; elapse quiet] in
  ((preload_wait <= quiet)%N ->
   preloads (calls (run g m twice)) = preloads (calls m) ++ [src2]
   /\ Debounce.pending (preloadPPTResource (store (run g m twice))) = false)
  /\ ((quiet + more < preload_wait)%N ->
      preloads (calls (run g m twice)) = preloads (calls m))
  /\ preloads (calls (run g m disconnected)) = preloads (calls m)
  /\ preloads (calls (run g m destroyed)) = preloads (calls m).
Proof.
  cbv zeta.
  assert (Hp : forall M, preloads (calls M) = snd (timer_view M))
    by reflexivity.
  assert (Hd : forall M, preloadPPTResource (store M) = fst (fst (timer_view M)))
    by reflexivity.
  rewrite !Hp, !Hd. unfold run. cbn [fold_left].
  rewrite !elapse_view, disconnect_view, destroy_view,
    (request_view g _ second src2 Hsecond Hsrc2), !elapse_view,
    !(request_view g _ first src1 Hfirst Hsrc1).
  rewrite !(view_request_early src1 gap) by exact Hgap.
  generalize (timer_view m). intros [[d t] ps]. cbn [fst snd].
  unfold view_cancel. cbn [fst snd]. rewrite !view_idle_elapse. cbn [fst snd].
  split; [| split; [| split]]; try reflexivity.
  - intros Hquiet.
    rewrite view_request_due by exact Hquiet. cbn [fst snd].
    rewrite view_idle_elapse. cbn [fst snd]. split; reflexivity.
  - intros Hshort.
    rewrite view_request_early by lia. cbn [fst snd].
    rewrite call_forgets, view_pending_elapse by lia. reflexivity.
Qed.

Lemma debounced_preload_coalesces_and_cancels_witness :
  let first := sample_modifyState "pptx://cdn/dynamicConvert/a/1.slide" in
  let second := sample_modifyState "pptx://cdn/dynamicConvert/b/1.slide" in
  preloads
    (calls
       (run sample_globals joined
          [invoke (Call.onRoomStateChanged first); elapse 500;
           invoke (Call.onRoomStateChanged second); elapse 2000;
           elapse 60000]))
  = ["pptx://cdn/dynamicConvert/b/1.slide"]
  /\ preloads
       (calls
          (run sample_globals joined
             [invoke (Call.onRoomStateChanged first); elapse 500;
              invoke Call.destroy; elapse 2000]))
     = [].
Proof.
  assert (Hne1 : "pptx://cdn/dynamicConvert/a/1.slide" <> "")
    by discriminate.
  assert (Hne2 : "pptx://cdn/dynamicConvert/b/1.slide" <> "")
    by discriminate.
  assert (Hgap : (500 < preload_wait)%N) by reflexivity.
  destruct (debounced_preload_coalesces_and_cancels sample_globals joined
              (sample_modifyState "pptx://cdn/dynamicConvert/a/1.slide")
              (sample_modifyState "pptx://cdn/dynamicConvert/b/1.slide")
              "pptx://cdn/dynamicConvert/a/1.slide"
              "pptx://cdn/dynamicConvert/b/1.slide"
              500 2000 60000 {| message := "lost" |}
              eq_refl Hne1 eq_refl Hne2 Hgap)
    as [Htwice [_ [_ Hdestroyed]]].
  split.
  - apply Htwice. discriminate.
  - exact Hdestroyed.
Defined.

(** ** Routing a document by the source of its scenes *)

Lemma literal_prefix lit s rest :
  literal lit s = Some rest -> String.prefix lit s = true.
Proof.
  revert s. induction lit as [| a lit IH]; intros s H.
  - destruct s; reflexivity.
  - destruct s as [| b s]; [discriminate |].
    simpl in *. destruct (Ascii.eqb_spec a b) as [-> | Hne].
    + destruct (ascii_dec b b) as [_ | Hbb]; [eauto | contradiction].
    + discriminate.
Qed.

(** The test [ppt.src.startsWith("ppt")] lets through every source the
    pattern matches. *)
Lemma match_startsWith_ppt s g :
  pptSrcRE_exec s = Some g -> startsWith s "ppt" = true.
Proof.
  unfold pptSrcRE_exec, startsWith. intros H.
  destruct (literal "ppt" s) as [s1 |] eqn:Hlit; [| discriminate].
  exact (literal_prefix _ _ _ Hlit).
Qed.

(** The loop passes over scenes that do not match, keeping their names. *)
Lemma makeSlideParams_loop_skip before rest acc :
  Forall (fun sc => matches_pattern sc = false) before ->
  makeSlideParams_loop (before ++ rest) acc
  = makeSlideParams_loop rest (acc ++ map name_only before).
Proof.
  intros H. revert acc.
  induction H as [| sc before Hsc _ IH]; intros acc; simpl.
  - rewrite app_nil_r. reflexivity.
  - unfold matches_pattern in Hsc.
    replace (acc ++ name_only sc :: map name_only before)
      with ((acc ++ [name_only sc]) ++ map name_only before)
      by (rewrite <- app_assoc; reflexivity).
    destruct (ppt sc) as [p |]; [| apply IH].
    destruct (negb (startsWith (src p) "ppt")); [apply IH |].
    destruct (pptSrcRE_exec (src p)); [discriminate | apply IH].
Qed.

Lemma makeSlideParams_loop_match sc p g rest acc :
  ppt sc = Some p -> pptSrcRE_exec (src p) = Some g ->
  makeSlideParams_loop (sc :: rest) acc
  = (acc ++ [name_only sc], groups_taskId g,
     ("https" ++ groups_prefix g)%string).
Proof.
  intros Hppt Hre. simpl.
  rewrite Hppt, (match_startsWith_ppt _ _ Hre), Hre. reflexivity.
Qed.

(** The loop leaves at the first match: the scenes after it are not
    pushed, so [scenesWithoutPPT] is then shorter than [scenes] whenever a
    scene follows the match. *)
Remark makeSlideParams_stops_at_match before sc p g rest :
  Forall (fun s => matches_pattern s = false) before ->
  ppt sc = Some p -> pptSrcRE_exec (src p) = Some g ->
  fst (fst (makeSlideParams (before ++ sc :: rest)))
  = map name_only (before ++ [sc]).
Proof.
  intros Hbefore Hppt Hre. unfold makeSlideParams.
  rewrite (makeSlideParams_loop_skip before (sc :: rest) [] Hbefore).
  rewrite (makeSlideParams_loop_match sc p g rest _ Hppt Hre).
  rewrite map_app. reflexivity.
Qed.

(** C5: with a window manager attached, a scene list whose first scene
    matching the pattern has the source
    [pptx://cdn.example.com/prefix/dynamicConvert/TASK123/1.slide] opens a
    "Slide" window with task identifier [TASK123] and URL
    [https://cdn.example.com/prefix/dynamicConvert]; a scene list in which
    no scene matches the pattern opens a [DocsViewer] window on the scene
    list exactly as it was given. *)
Theorem openDocs_routes_by_source
    (this : WhiteboardStore) (wm : WindowManager) (scenePath title : string)
    (Hwm : windowManager this = Some wm) :
  (forall before sc p rest,
     Forall (fun s => matches_pattern s = false) before ->
     ppt sc = Some p -> src p = example_src ->
     openDocsFileInWindowManager scenePath title (before ++ sc :: rest) this
     = (this,
        [windowManager_addApp
           {| kind := Slide;
              options :=
                {| options_scenePath := Some scenePath;
                   options_title := Some title;
                   options_scenes := Some (map name_only (before ++ [sc])) |};
              attributes :=
                slide_attributes "TASK123"
                  "https://cdn.example.com/prefix/dynamicConvert" |}],
        Await await_addApp_in_try))
  /\ (forall scenes,
        Forall (fun s => matches_pattern s = false) scenes ->
        openDocsFileInWindowManager scenePath title scenes this
        = (this,
           [windowManager_addApp
              {| kind := DocsViewer;
                 options :=
                   {| options_scenePath := Some scenePath;
                      options_title := Some title;
                      options_scenes := Some scenes |};
                 attributes := no_attributes |}],
           Await await_addApp_in_try)).
Proof.
  split.
  - intros before sc p rest Hbefore Hppt Hsrc.
    unfold openDocsFileInWindowManager, makeSlideParams. rewrite Hwm.
    rewrite (makeSlideParams_loop_skip before (sc :: rest) [] Hbefore).
    assert (Hre : pptSrcRE_exec (src p)
                  = Some {| groups_prefix :=
                              "://cdn.example.com/prefix/dynamicConvert";
                            groups_taskId := "TASK123" |})
      by (rewrite Hsrc; reflexivity).
    rewrite (makeSlideParams_loop_match sc p _ rest _ Hppt Hre).
    rewrite map_app. reflexivity.
  - intros scenes Hnone.
    unfold openDocsFileInWindowManager, makeSlideParams. rewrite Hwm.
    rewrite <- (app_nil_r scenes) at 1.
    rewrite (makeSlideParams_loop_skip scenes [] [] Hnone).
    reflexivity.
Qed.

Lemma openDocs_routes_by_source_witness :
  let slide :=
    {| name := Some "1";
       ppt := Some {| src := example_src; width := 1280; height := 720;
                      previewURL := None |} |} in
  let plain :=
    {| name := Some "cover";
       ppt := Some {| src := "https://cdn.example.com/cover.png";
                      width := 1280; height := 720; previewURL := None |} |} in
  fst (openDocsFileInWindowManager "/deck" "Deck" ([plain] ++ slide :: [plain])
         (store joined))
  = (store joined,
     [windowManager_addApp
        {| kind := Slide;
           options :=
             {| options_scenePath := Some "/deck";
                options_title := Some "Deck";
                options_scenes :=
                  Some [{| name := Some "cover"; ppt := None |};
                        {| name := Some "1"; ppt := None |}] |};
           attributes :=
             slide_attributes "TASK123"
               "https://cdn.example.com/prefix/dynamicConvert" |}])
  /\ fst (openDocsFileInWindowManager "/deck" "Deck" [plain; plain]
            (store joined))
     = (store joined,
        [windowManager_addApp
           {| kind := DocsViewer;
              options :=
                {| options_scenePath := Some "/deck";
                   options_title := Some "Deck";
                   options_scenes := Some [plain; plain] |};
              attributes := no_attributes |}]).
Proof.
  intros slide plain.
  destruct (openDocs_routes_by_source (store joined) sample_manager
              "/deck" "Deck" eq_refl) as [Hslide Hdocs].
  assert (Hplain : matches_pattern plain = false) by reflexivity.
  split.
  - rewrite (Hslide [plain] slide _ [plain]
               (Forall_cons _ Hplain (Forall_nil _)) eq_refl eq_refl).
    reflexivity.
  - rewrite (Hdocs [plain; plain]
               (Forall_cons _ Hplain (Forall_cons _ Hplain (Forall_nil _)))).
    reflexivity.
Defined.

(** ** The pattern, declaratively *)

Lemma literal_sound lit s rest :
  literal lit s = Some rest -> s = (lit ++ rest)%string.
Proof.
  revert s. induction lit as [| a lit IH]; intros s H; simpl in *.
  - congruence.
  - destruct s as [| b s]; [discriminate |].
    destruct (Ascii.eqb_spec a b) as [-> | _]; [| discriminate].
    rewrite (IH _ H). reflexivity.
Qed.

Lemma literal_complete lit rest : literal lit (lit ++ rest) = Some rest.
Proof.
  induction lit as [| a lit IH]; simpl; [reflexivity |].
  rewrite Ascii.eqb_refl. exact IH.
Qed.

Lemma word_run_sound s w rest :
  word_run s = (w, rest) ->
  s = (w ++ rest)%string /\ all_chars isWordChar w = true.
Proof.
  revert w rest. induction s as [| c s IH]; intros w rest H; simpl in H.
  - injection H as <- <-. split; reflexivity.
  - destruct (isWordChar c) eqn:Hc.
    + destruct (word_run s) as [w' rest'] eqn:Hrun.
      injection H as <- <-.
      destruct (IH _ _ eq_refl) as [-> Hall].
      simpl. rewrite Hc. split; [reflexivity | exact Hall].
    + injection H as <- <-. split; reflexivity.
Qed.

Lemma word_run_complete w rest :
  all_chars isWordChar w = true ->
  word_run (w ++ String "/" rest) = (w, String "/" rest).
Proof.
  induction w as [| c w IH]; simpl; intros H; [reflexivity |].
  apply andb_prop in H. destruct H as [Hc Hw].
  rewrite Hc, (IH Hw). reflexivity.
Qed.

Lemma dynamicConvert_taskId_sound s t :
  dynamicConvert_taskId s = Some t ->
  exists rest,
    s = ("dynamicConvert/" ++ t ++ "/" ++ rest)%string
    /\ t <> "" /\ all_chars isWordChar t = true.
Proof.
  unfold dynamicConvert_taskId. intros H.
  destruct (literal "dynamicConvert/" s) as [s1 |] eqn:Hlit; [| discriminate].
  destruct (word_run s1) as [w r] eqn:Hrun.
  destruct w as [| c w]; [discriminate |].
  destruct r as [| d r]; [discriminate |].
  destruct (Ascii.eqb_spec d "/") as [-> | Hd].
  - injection H as <-.
    destruct (word_run_sound _ _ _ Hrun) as [-> Hall].
    exists r. rewrite (literal_sound _ _ _ Hlit).
    split; [reflexivity |]. split; [discriminate | exact Hall].
  - exfalso. destruct d as [[] [] [] [] [] [] [] []];
      try discriminate H; apply Hd; reflexivity.
Qed.

Lemma dynamicConvert_taskId_complete t rest :
  t <> "" -> all_chars isWordChar t = true ->
  dynamicConvert_taskId ("dynamicConvert/" ++ t ++ "/" ++ rest) = Some t.
Proof.
  intros Hne Hall. unfold dynamicConvert_taskId.
  rewrite literal_complete.
  change (t ++ "/" ++ rest)%string with (t ++ String "/" rest)%string.
  rewrite (word_run_complete _ _ Hall).
  destruct t; [contradiction | reflexivity].
Qed.

Lemma append_assoc (a b c : string) :
  ((a ++ b) ++ c = a ++ (b ++ c))%string.
Proof. induction a as [| x a IH]; simpl; [| rewrite IH]; reflexivity. Qed.

Lemma lazy_nonspace_sound s m t :
  lazy_nonspace s = Some (m, t) ->
  exists rest,
    s = (m ++ "dynamicConvert/" ++ t ++ "/" ++ rest)%string
    /\ m <> "" /\ all_chars (fun c => negb (isWhiteSpace c)) m = true
    /\ t <> "" /\ all_chars isWordChar t = true.
Proof.
  revert m t. induction s as [| c s IH]; intros m t H; simpl in H;
    [discriminate |].
  destruct (isWhiteSpace c) eqn:Hc; [discriminate |].
  destruct (dynamicConvert_taskId s) as [t' |] eqn:Hdyn.
  - injection H as <- <-.
    destruct (dynamicConvert_taskId_sound _ _ Hdyn) as [rest [-> [Hne Hall]]].
    exists rest. simpl. rewrite Hc. repeat split; try assumption; discriminate.
  - destruct (lazy_nonspace s) as [[m' t'] |] eqn:Hlazy; [| discriminate].
    injection H as <- <-.
    destruct (IH _ _ eq_refl) as [rest [-> [_ [Hm [Hne Hall]]]]].
    exists rest. simpl. rewrite Hc, Hm.
    repeat split; try assumption; discriminate.
Qed.

Lemma lazy_nonspace_complete m t rest :
  m <> "" -> all_chars (fun c => negb (isWhiteSpace c)) m = true ->
  t <> "" -> all_chars isWordChar t = true ->
  lazy_nonspace (m ++ "dynamicConvert/" ++ t ++ "/" ++ rest) <> None.
Proof.
  intros Hm Hall Ht Hword.
  pose proof (dynamicConvert_taskId_complete t rest Ht Hword) as Htail.
  set (tail := ("dynamicConvert/" ++ t ++ "/" ++ rest)%string) in *.
  clearbody tail.
  induction m as [| c m IH]; [contradiction |].
  simpl in Hall. apply andb_prop in Hall. destruct Hall as [Hc Hall].
  apply Bool.negb_true_iff in Hc.
  change (String c m ++ tail)%string with (String c (m ++ tail)%string).
  cbn [lazy_nonspace]. rewrite Hc.
  destruct (dynamicConvert_taskId (m ++ tail)) eqn:Hdyn; [discriminate |].
  destruct m as [| d m].
  - simpl in Hdyn. congruence.
  - specialize (IH ltac:(discriminate) Hall).
    destruct (lazy_nonspace (String d m ++ tail)) as [[m' t'] |];
      [discriminate | contradiction].
Qed.

Lemma prefix_taskId_sound s g :
  prefix_taskId s = Some g ->
  exists mid rest,
    s = ("://" ++ mid ++ "dynamicConvert/" ++ groups_taskId g ++ "/" ++ rest)%string
    /\ groups_prefix g = ("://" ++ mid ++ "dynamicConvert")%string
    /\ mid <> "" /\ all_chars (fun c => negb (isWhiteSpace c)) mid = true
    /\ groups_taskId g <> "" /\ all_chars isWordChar (groups_taskId g) = true.
Proof.
  unfold prefix_taskId. intros H.
  destruct (literal "://" s) as [s1 |] eqn:Hlit; [| discriminate].
  destruct (lazy_nonspace s1) as [[m t] |] eqn:Hlazy; [| discriminate].
  injection H as <-. cbn [groups_taskId groups_prefix].
  destruct (lazy_nonspace_sound _ _ _ Hlazy) as [rest [-> H]].
  exists m, rest. rewrite (literal_sound _ _ _ Hlit).
  split; [reflexivity |]. split; [reflexivity | exact H].
Qed.

(** Whatever [exec] returns is a match of the pattern with those groups. *)
Lemma pptSrcRE_exec_sound s g :
  pptSrcRE_exec s = Some g ->
  pattern_accepts s (groups_prefix g) (groups_taskId g).
Proof.
  unfold pptSrcRE_exec, pattern_accepts. intros H.
  destruct (literal "ppt" s) as [s1 |] eqn:Hlit; [| discriminate].
  apply literal_sound in Hlit. subst s.
  assert (Hplain : prefix_taskId s1 = Some g ->
            exists x mid rest,
              (x = "" \/ x = "x")
              /\ ("ppt" ++ s1 = "ppt" ++ x ++ "://" ++ mid ++ "dynamicConvert/"
                               ++ groups_taskId g ++ "/" ++ rest)%string
              /\ groups_prefix g = ("://" ++ mid ++ "dynamicConvert")%string
              /\ mid <> ""
              /\ all_chars (fun c => negb (isWhiteSpace c)) mid = true
              /\ groups_taskId g <> ""
              /\ all_chars isWordChar (groups_taskId g) = true).
  { intros Hp. destruct (prefix_taskId_sound _ _ Hp) as [mid [rest [-> Hrest]]].
    exists "", mid, rest. split; [left; reflexivity |].
    split; [reflexivity | exact Hrest]. }
  destruct s1 as [| c s2]; [exact (Hplain H) |].
  destruct (Ascii.eqb_spec c "x") as [-> | Hc].
  - destruct (prefix_taskId s2) as [g' |] eqn:Hx; [| exact (Hplain H)].
    injection H as <-.
    destruct (prefix_taskId_sound _ _ Hx) as [mid [rest [-> Hrest]]].
    exists "x", mid, rest. split; [right; reflexivity |].
    split; [reflexivity | exact Hrest].
  - apply Hplain. revert H.
    destruct c as [[] [] [] [] [] [] [] []]; try (intros H; exact H).
    contradiction Hc. reflexivity.
Qed.

(** Whatever the pattern accepts, [exec] finds a match for. *)
Lemma pptSrcRE_exec_complete s prefix taskId :
  pattern_accepts s prefix taskId -> pptSrcRE_exec s <> None.
Proof.
  intros [x [mid [rest [Hx [-> [_ [Hmid [Hall [Ht Hword]]]]]]]]].
  pose proof (lazy_nonspace_complete mid taskId rest Hmid Hall Ht Hword)
    as Hlazy.
  assert (Hp : prefix_taskId
                 ("://" ++ mid ++ "dynamicConvert/" ++ taskId ++ "/" ++ rest)
               <> None).
  { unfold prefix_taskId. rewrite literal_complete.
    destruct (lazy_nonspace
                (mid ++ "dynamicConvert/" ++ taskId ++ "/" ++ rest))
      as [[m t] |]; [discriminate | contradiction]. }
  unfold pptSrcRE_exec. rewrite literal_complete.
  set (tail := ("://" ++ mid ++ "dynamicConvert/" ++ taskId ++ "/" ++ rest)%string)
    in *.
  destruct Hx as [-> | ->].
  - exact Hp.
  - change (match prefix_taskId tail with
            | Some g => Some g
            | None => prefix_taskId (String "x" tail)
            end <> None).
    destruct (prefix_taskId tail); [discriminate | contradiction].
Qed.

(** ** Teardown *)

Lemma run_call_keeps_room g now c this :
  has_room this = true ->
  has_room (fst (fst (run_call g now c this))) = true.
Proof.
  unfold has_room. intros H.
  destruct c; simpl; field_after_method.
Qed.

Lemma resume_keeps_room g k answer this :
  has_room this = true ->
  has_room (fst (fst (resume g k answer this))) = true.
Proof.
  unfold has_room. intros H.
  destruct k; simpl; field_after_method.
Qed.

(** Nothing in the store ever lets go of the room handle. *)
Lemma step_keeps_room g m e :
  has_room (store m) = true -> has_room (store (step g m e)) = true.
Proof.
  intros H. destruct e; simpl.
  - rewrite store_after. now apply run_call_keeps_room.
  - destruct (nth_error (suspended m) n); [| assumption].
    rewrite store_after. now apply resume_keeps_room.
  - exact H.
  - unfold has_room in *.
    destruct (room (store m)); [reflexivity | discriminate H].
  - unfold has_room in *.
    destruct (windowManager (store m)); simpl; assumption.
Qed.

(** C1, as the code has it: after [destroy], whatever events came before,
    the window manager of the store is [null] and the debounced preload is
    idle, so that no wait, however long, runs a preload; the room handle is
    not released: the store holds after [destroy] what it held before, and
    a handle that is held has had its callbacks switched off. *)
Theorem destroy_releases_manager_and_preload
    (g : Globals) (m0 : Machine) (events : list Event) (ms : N) :
  let before := run g m0 events in
  let m := step g before (invoke Call.destroy) in
  windowManager (store m) = None
  /\ preloadPPTResource (store m) = Debounce.idle
  /\ Debounce.pending (preloadPPTResource (store m)) = false
  /\ preloads (calls (step g m (elapse ms))) = preloads (calls m)
  /\ room (store m) = room (store before)
  /\ calls m
     = calls before
       ++ match windowManager (store before) with
          | Some _ => [windowManager_destroy]
          | None => []
          end
       ++ match room (store before) with
          | Some _ => [room_callbacks_off]
          | None => []
          end
       ++ (if is_development (platform g)
           then [window_room_set None; window_manager_set None]
           else [])
       ++ [console_log_unloaded (whiteboardRoomUUID (globalStore g))].
Proof.
  cbv zeta. generalize (run g m0 events). intros before.
  assert (Hp : forall M, preloads (calls M) = snd (timer_view M))
    by reflexivity.
  rewrite !Hp, elapse_view, destroy_view.
  unfold view_cancel. rewrite view_idle_elapse.
  simpl. repeat split.
Qed.

(** C1, as the spec has it, fails: after a completed join, [destroy] leaves
    the room handle in the store. *)
Lemma destroy_keeps_room_handle :
  let m :=
    run sample_globals (boot false)
      [invoke Call.joinWhiteboardRoom; settle 0 (fulfilled_with sample_room);
       invoke Call.destroy] in
  room (store m) = Some (set_disableDeviceInputs true sample_room)
  /\ room (store m) <> None
  /\ windowManager (store m) = None.
Proof.
  cbv zeta. split; [reflexivity |]. split; [discriminate | reflexivity].
Qed.

(** ** The write gate under interleaving *)

Lemma run_call_isWritable g now c this :
  isWritable (fst (fst (run_call g now c this)))
  = match c with
    | Call.updateWritable b => b
    | _ => isWritable this
    end.
Proof. destruct c; simpl; field_after_method. Qed.

Lemma resume_isWritable g k answer this :
  isWritable (fst (fst (resume g k answer this))) = isWritable this.
Proof. destruct k; simpl; field_after_method. Qed.

Lemma step_isWritable g m e :
  isWritable (store (step g m e))
  = match e with
    | invoke (Call.updateWritable b) => b
    | _ => isWritable (store m)
    end.
Proof.
  destruct e; simpl.
  - rewrite store_after, run_call_isWritable. destruct c; reflexivity.
  - destruct (nth_error (suspended m) n); [| reflexivity].
    rewrite store_after. apply resume_isWritable.
  - reflexivity.
  - destruct (room (store m)); reflexivity.
  - destruct (windowManager (store m)); reflexivity.
Qed.

Lemma run_isWritable g m events :
  isWritable (store (run g m events))
  = last_requested events (isWritable (store m)).
Proof.
  induction events as [| e events IH] using rev_ind; [reflexivity |].
  rewrite run_snoc, step_isWritable.
  unfold last_requested. rewrite fold_left_app. simpl.
  fold (last_requested events (isWritable (store m))).
  rewrite <- IH. reflexivity.
Qed.

Lemma In_remove_nth {A} (x : A) n l : In x (remove_nth n l) -> In x l.
Proof.
  revert n. induction l as [| y l IH]; intros n H; [destruct n; exact H |].
  destruct n as [| n]; simpl in *.
  - right. exact H.
  - destruct H as [H | H]; [left; exact H | right; exact (IH n H)].
Qed.

Lemma suspended_after m waiting r :
  suspended (after m waiting r)
  = match snd r with
    | Await k => waiting ++ [k]
    | Return _ => waiting
    end.
Proof. destruct r as [[this called] a]. reflexivity. Qed.

Lemma run_call_await_setWritable g now c this b :
  snd (run_call g now c this) = Await (await_room_setWritable b) ->
  has_room (fst (fst (run_call g now c this))) = true.
Proof.
  destruct c; simpl; unfold_methods; simpl;
    repeat (break_match; simpl in * ); try discriminate.
  intros _.
  match goal with
  | H : _ && _ = true |- _ => apply andb_prop in H; destruct H as [_ H]
  end.
  assumption.
Qed.

Lemma resume_returns g k answer this :
  exists result, snd (resume g k answer this) = Return result.
Proof.
  destruct k; simpl; unfold_methods; simpl;
    repeat (break_match; simpl in * ); eexists; reflexivity.
Qed.

Lemma step_waits_with_room g m e :
  waits_with_room m -> waits_with_room (step g m e).
Proof.
  unfold waits_with_room. intros Hm. destruct e; simpl.
  - rewrite store_after, suspended_after. intros [b Hin].
    destruct (snd (run_call g (clock m) c (store m))) as [res | k] eqn:Hsnd.
    + apply run_call_keeps_room. eauto.
    + apply in_app_or in Hin. destruct Hin as [Hin | [-> | []]].
      * apply run_call_keeps_room. eauto.
      * exact (run_call_await_setWritable _ _ _ _ _ Hsnd).
  - destruct (nth_error (suspended m) n) as [k |]; [| exact Hm].
    rewrite store_after, suspended_after.
    destruct (resume_returns g k answer (store m)) as [res ->].
    intros [b Hin]. apply resume_keeps_room. apply Hm. exists b.
    exact (In_remove_nth _ _ _ Hin).
  - exact Hm.
  - intros Hin. specialize (Hm Hin). unfold has_room in *.
    destruct (room (store m)); [reflexivity | discriminate Hm].
  - intros Hin. specialize (Hm Hin). unfold has_room in *.
    destruct (windowManager (store m)); simpl; exact Hm.
Qed.

Lemma run_waits_with_room g m events :
  waits_with_room m -> waits_with_room (run g m events).
Proof.
  intros Hm. induction events as [| e events IH] using rev_ind; [exact Hm |].
  rewrite run_snoc. apply step_waits_with_room. exact IH.
Qed.

Lemma boot_waits_with_room c : waits_with_room (boot c).
Proof. intros [b []]. Qed.

(** The accepted request, seen from the store. *)
Lemma updateWritable_k_fulfilled b this r :
  room this = Some r ->
  updateWritable_k b fulfilled this
  = (set_room
       (Some (let r' := set_disableDeviceInputs (negb b) r in
              if b then set_disableSerialization false r' else r'))
       this,
     [], Return Resolved).
Proof. intros H. unfold updateWritable_k. rewrite H. reflexivity. Qed.

(** One awaited call from a machine with nothing suspended. *)
Lemma awaited_call g m b :
  suspended m = [] ->
  let m' := run g m (awaited b) in
  suspended m' = []
  /\ (gate_agrees (store m) = true \/ b <> isWritable (store m) ->
      gate_agrees (store m') = true).
Proof.
  destruct m as [this waiting now called]. simpl. intros ->.
  unfold updateWritable, has_room.
  destruct (Bool.eqb (isWritable this) b) eqn:Hsame.
  - (* the value is the stored one: nothing happens *)
    apply Bool.eqb_prop in Hsame. subst b.
    rewrite set_isWritable_same. simpl.
    split; [reflexivity |]. intros [H | H]; [exact H | congruence].
  - simpl. destruct (room this) as [r |] eqn:Hroom; simpl.
    + unfold updateWritable_k. simpl. rewrite Hroom. simpl.
      split; [reflexivity |]. intros _.
      unfold gate_agrees. destruct b; simpl; reflexivity.
    + split; [reflexivity |]. intros _.
      unfold gate_agrees. simpl. rewrite Hroom. reflexivity.
Qed.

Lemma awaited_calls g bs :
  forall m,
    suspended m = [] -> gate_agrees (store m) = true ->
    let m' := run g m (List.concat (map awaited bs)) in
    suspended m' = [] /\ gate_agrees (store m') = true.
Proof.
  induction bs as [| b bs IH]; intros m Hs Hg; [split; assumption |].
  cbn [map List.concat]. cbv zeta. rewrite run_app.
  destruct (awaited_call g m b Hs) as [Hs' Hg'].
  apply IH; [exact Hs' | apply Hg'; left; exact Hg].
Qed.

(** C2, as the code has it: whatever the events and however the calls
    overlap, the stored value is the argument of the last [updateWritable];
    when the request of a call [updateWritable b] is accepted, the room gets
    [disableDeviceInputs = !b] and, for [b = true], serialization enabled;
    and when the owner awaits each call before the next, flags that agreed
    with the stored value agree with it after every call.  Nothing orders
    overlapping requests, so between them no agreement with the stored
    value is promised. *)
Theorem write_gate_follows_calls (g : Globals) :
  (forall m events,
     isWritable (store (run g m events))
     = last_requested events (isWritable (store m)))
  /\ (forall config_isCreator events n b,
        let m := run g (boot config_isCreator) events in
        nth_error (suspended m) n = Some (await_room_setWritable b) ->
        exists r,
          room (store (step g m (settle n fulfilled))) = Some r
          /\ disableDeviceInputs r = negb b
          /\ (b = true -> disableSerialization r = false))
  /\ (forall m bs,
        suspended m = [] -> gate_agrees (store m) = true ->
        let m' := run g m (List.concat (map awaited bs)) in
        suspended m' = [] /\ gate_agrees (store m') = true).
Proof.
  split; [| split].
  - intros m events. apply run_isWritable.
  - intros c events n b m Hnth.
    assert (Hroom : has_room (store m) = true).
    { apply (run_waits_with_room g (boot c) events (boot_waits_with_room c)).
      exists b. exact (nth_error_In _ _ Hnth). }
    unfold has_room in Hroom.
    destruct (room (store m)) as [r0 |] eqn:Hr0; [| discriminate].
    simpl. rewrite Hnth, store_after. cbn [resume].
    rewrite (updateWritable_k_fulfilled _ _ _ Hr0). cbn [fst].
    eexists. split; [destruct (store m); reflexivity |].
    destruct b; simpl; split; congruence.
  - intros m bs Hs Hg. exact (awaited_calls g bs m Hs Hg).
Qed.

Lemma write_gate_follows_calls_witness :
  isWritable
    (store
       (run sample_globals joined
          [invoke (Call.updateWritable true);
           invoke (Call.updateWritable false);
           settle 1 fulfilled; settle 0 fulfilled]))
  = false
  /\ (exists r,
        room
          (store
             (step sample_globals
                (run sample_globals (boot false)
                   [invoke Call.joinWhiteboardRoom;
                    settle 0 (fulfilled_with sample_room);
                    invoke (Call.updateWritable true)])
                (settle 0 fulfilled)))
        = Some r
        /\ disableDeviceInputs r = negb true
        /\ (true = true -> disableSerialization r = false))
  /\ gate_agrees
       (store
          (run sample_globals joined
             (List.concat (map awaited [true; false; false; true]))))
     = true.
Proof.
  destruct (write_gate_follows_calls sample_globals) as [Hlast [Hk Hseq]].
  split; [| split].
  - rewrite Hlast. reflexivity.
  - exact (Hk false
             [invoke Call.joinWhiteboardRoom;
              settle 0 (fulfilled_with sample_room);
              invoke (Call.updateWritable true)]
             0%nat true eq_refl).
  - exact (proj2 (Hseq joined [true; false; false; true] eq_refl eq_refl)).
Defined.

(** C2, as the spec has it, fails.  Two calls overlap: when the request of
    the first is accepted while the second is in flight, when both have been
    accepted, the later one first, and when the first is accepted and the
    second refused, device inputs are enabled although the stored value is
    [false].  And a creator, writable from the start, gets a resolved
    promise from [updateWritable true] while the room still has
    serialization disabled. *)
Lemma overlapping_updateWritable_breaks_gate :
  let overlapping :=
    [invoke (Call.updateWritable true); invoke (Call.updateWritable false)] in
  let m1 := run sample_globals joined (overlapping ++ [settle 0 fulfilled]) in
  let m2 :=
    run sample_globals joined
      (overlapping ++ [settle 1 fulfilled; settle 0 fulfilled]) in
  let m3 :=
    run sample_globals (boot true)
      [invoke Call.joinWhiteboardRoom; settle 0 (fulfilled_with sample_room);
       invoke (Call.updateWritable true)] in
  let m4 :=
    run sample_globals joined
      (overlapping
       ++ [settle 0 fulfilled; settle 0 (rejected {| message := "refused" |})])
  in
  (suspended m1 = [await_room_setWritable false]
   /\ isWritable (store m1) = false
   /\ option_map disableDeviceInputs (room (store m1)) = Some false
   /\ gate_agrees (store m1) = false)
  /\ (suspended m2 = []
      /\ isWritable (store m2) = false
      /\ option_map disableDeviceInputs (room (store m2)) = Some false
      /\ gate_agrees (store m2) = false)
  /\ (suspended m3 = []
      /\ isWritable (store m3) = true
      /\ option_map disableSerialization (room (store m3)) = Some true
      /\ gate_agrees (store m3) = false)
  /\ (suspended m4 = []
      /\ isWritable (store m4) = false
      /\ option_map disableDeviceInputs (room (store m4)) = Some false
      /\ gate_agrees (store m4) = false).
Proof. cbv zeta. repeat split. Qed.

(** * Further properties of the store *)

(** ** Directory of a scene path *)

Lemma lastIndexOf_slash_from_none i s :
  no_slash s = true -> lastIndexOf_slash_from i s = -1.
Proof.
  unfold no_slash.
  revert i. induction s as [| c s IH]; intros i H; [reflexivity |].
  cbn [all_chars] in H. apply andb_prop in H. destruct H as [Hc Hs].
  cbn [lastIndexOf_slash_from]. rewrite (IH (i + 1) Hs).
  apply Bool.negb_true_iff in Hc. rewrite Hc. reflexivity.
Qed.

Lemma lastIndexOf_slash_from_last i dir base :
  0 <= i -> no_slash base = true ->
  lastIndexOf_slash_from i (dir ++ String "/" base)
  = i + Z.of_nat (String.length dir).
Proof.
  intros Hi Hbase. revert i Hi.
  induction dir as [| c dir IH]; intros i Hi.
  - simpl. rewrite (lastIndexOf_slash_from_none (i + 1) base Hbase).
    simpl. lia.
  - cbn [append lastIndexOf_slash_from String.length].
    rewrite (IH (i + 1)) by lia.
    destruct (Z.leb_spec 0 (i + 1 + Z.of_nat (String.length dir))); lia.
Qed.

Lemma substring_prefix a b :
  String.substring 0 (String.length a) (a ++ b) = a.
Proof.
  induction a as [| c a IH]; simpl.
  - destruct b; reflexivity.
  - rewrite IH. reflexivity.
Qed.

Lemma length_append a b :
  String.length (a ++ b) = (String.length a + String.length b)%nat.
Proof. induction a as [| c a IH]; simpl; [| rewrite IH]; reflexivity. Qed.

Lemma dirName_dir_base dir base :
  no_slash base = true -> dirName (dir ++ "/" ++ base) = dir.
Proof.
  intros Hbase. unfold dirName, lastIndexOf_slash, slice0.
  change (dir ++ "/" ++ base)%string with (dir ++ String "/" base)%string.
  rewrite (lastIndexOf_slash_from_last 0 dir base (Z.le_refl 0) Hbase).
  rewrite length_append. cbn [String.length].
  destruct (Z.ltb_spec (0 + Z.of_nat (String.length dir)) 0); [lia |].
  rewrite Z.min_l by lia.
  replace (Z.to_nat (0 + Z.of_nat (String.length dir)))
    with (String.length dir) by lia.
  apply substring_prefix.
Qed.

(** X1: for a scene path [dir/base] whose last segment [base] holds no
    slash, [dirName] is [dir], everything before the last slash; so with a
    room on such a path and a window manager, [addMainViewScene] puts one
    empty scene into the directory [dir] of the current scene, at the index
    after the current one, and asks the main view to show that index,
    without writing the store. *)
Theorem addMainViewScene_in_current_directory
    (this : WhiteboardStore) (r : Room) (wm : WindowManager)
    (dir base : string)
    (Hroom : room this = Some r) (Hwm : windowManager this = Some wm)
    (Hpath : scenePath (sceneState (state r)) = (dir ++ "/" ++ base)%string)
    (Hbase : no_slash base = true) :
  dirName (dir ++ "/" ++ base) = dir
  /\ addMainViewScene this
     = (this,
        [room_putScenes dir [empty_scene]
           (Number.add (currentSceneIndex this) 1);
         windowManager_setMainViewSceneIndex
           (Number.add (currentSceneIndex this) 1)]).
Proof.
  split; [exact (dirName_dir_base dir base Hbase) |].
  unfold addMainViewScene.
  rewrite Hroom, Hwm, Hpath, (dirName_dir_base dir base Hbase).
  reflexivity.
Qed.

Lemma addMainViewScene_in_current_directory_witness :
  dirName "/courseware/deck-1/2" = "/courseware/deck-1"
  /\ addMainViewScene sample_deck_store
     = (sample_deck_store,
        [room_putScenes "/courseware/deck-1" [empty_scene] 2;
         windowManager_setMainViewSceneIndex 2]).
Proof.
  exact (addMainViewScene_in_current_directory sample_deck_store
           sample_deck_room sample_manager "/courseware/deck-1" "2"
           eq_refl eq_refl eq_refl eq_refl).
Defined.

(** X2: a scene path without any slash loses its last character:
    [lastIndexOf] answers [-1] and [slice(0, -1)] cuts one character off the
    end. *)
Theorem dirName_without_slash_drops_last (body : string) (c : ascii)
    (Hbody : no_slash body = true) (Hc : c <> "/"%char) :
  dirName (body ++ String c "") = body.
Proof.
  assert (Hall : no_slash (body ++ String c "") = true).
  { clear -Hbody Hc. unfold no_slash in *.
    induction body as [| d body IH]; cbn [append all_chars] in *.
    - apply Ascii.eqb_neq in Hc. rewrite Hc. reflexivity.
    - apply andb_prop in Hbody. destruct Hbody as [Hd Hbody].
      rewrite Hd, (IH Hbody). reflexivity. }
  unfold dirName, lastIndexOf_slash, slice0.
  rewrite (lastIndexOf_slash_from_none 0 _ Hall).
  rewrite length_append. cbn [String.length].
  change (-1 <? 0) with true. cbv iota.
  rewrite Z.max_l by lia.
  replace (Z.to_nat (Z.of_nat (String.length body + 1) + -1))
    with (String.length body) by lia.
  apply substring_prefix.
Qed.

Lemma dirName_without_slash_drops_last_witness : dirName "init" = "ini".
Proof.
  exact (dirName_without_slash_drops_last "ini" "t" eq_refl
           (fun H => ltac:(discriminate H))).
Defined.

(** ** The gateway on any scene list *)

Lemma first_match_split scenes :
  existsb matches_pattern scenes = true ->
  exists before sc rest,
    scenes = before ++ sc :: rest
    /\ Forall (fun s => matches_pattern s = false) before
    /\ matches_pattern sc = true.
Proof.
  induction scenes as [| s scenes IH]; [discriminate |].
  simpl. destruct (matches_pattern s) eqn:Hs; simpl.
  - intros _. exists [], s, scenes.
    split; [reflexivity |]. split; [constructor | exact Hs].
  - intros H. destruct (IH H) as [before [sc [rest [-> [Hb Hsc]]]]].
    exists (s :: before), sc, rest.
    split; [reflexivity |]. split; [| exact Hsc].
    constructor; assumption.
Qed.

Lemma no_match_Forall scenes :
  existsb matches_pattern scenes = false ->
  Forall (fun s => matches_pattern s = false) scenes.
Proof.
  induction scenes as [| s scenes IH]; [constructor |].
  simpl. intros H. apply Bool.orb_false_iff in H. destruct H as [Hs H].
  constructor; [exact Hs | exact (IH H)].
Qed.

Lemma matches_pattern_groups sc :
  matches_pattern sc = true ->
  exists p g, ppt sc = Some p /\ pptSrcRE_exec (src p) = Some g.
Proof.
  unfold matches_pattern. destruct (ppt sc) as [p |]; [| discriminate].
  destruct (pptSrcRE_exec (src p)) as [g |] eqn:Hg; [| discriminate].
  intros _. exists p, g. split; [reflexivity | exact Hg].
Qed.

Lemma groups_truthy s g :
  pptSrcRE_exec s = Some g ->
  nonempty (groups_taskId g) && nonempty ("https" ++ groups_prefix g) = true.
Proof.
  intros H. apply pptSrcRE_exec_sound in H.
  destruct H as [x [mid [rest [_ [_ [_ [_ [_ [Ht _]]]]]]]]].
  unfold nonempty. apply String.eqb_neq in Ht. rewrite Ht. reflexivity.
Qed.

Lemma openDocs_at_first_match this wm scenePath title before sc p g rest :
  windowManager this = Some wm ->
  Forall (fun s => matches_pattern s = false) before ->
  ppt sc = Some p -> pptSrcRE_exec (src p) = Some g ->
  openDocsFileInWindowManager scenePath title (before ++ sc :: rest) this
  = (this,
     [windowManager_addApp
        {| kind := Slide;
           options :=
             {| options_scenePath := Some scenePath;
                options_title := Some title;
                options_scenes := Some (map name_only (before ++ [sc])) |};
           attributes :=
             slide_attributes (groups_taskId g)
               ("https" ++ groups_prefix g) |}],
     Await await_addApp_in_try).
Proof.
  intros Hwm Hbefore Hppt Hre.
  unfold openDocsFileInWindowManager, makeSlideParams. rewrite Hwm.
  rewrite (makeSlideParams_loop_skip before (sc :: rest) [] Hbefore).
  rewrite (makeSlideParams_loop_match sc p g rest _ Hppt Hre).
  rewrite (groups_truthy _ _ Hre), map_app. reflexivity.
Qed.

Lemma openDocs_without_match this wm scenePath title scenes :
  windowManager this = Some wm ->
  Forall (fun s => matches_pattern s = false) scenes ->
  openDocsFileInWindowManager scenePath title scenes this
  = (this,
     [windowManager_addApp
        {| kind := DocsViewer;
           options :=
             {| options_scenePath := Some scenePath;
                options_title := Some title;
                options_scenes := Some scenes |};
           attributes := no_attributes |}],
     Await await_addApp_in_try).
Proof.
  intros Hwm Hnone.
  unfold openDocsFileInWindowManager, makeSlideParams. rewrite Hwm.
  rewrite <- (app_nil_r scenes) at 1.
  rewrite (makeSlideParams_loop_skip scenes [] [] Hnone).
  reflexivity.
Qed.

(** X3: with a window manager, the first scene whose source matches the
    pattern decides the window, whatever follows it: a "Slide" window is
    opened with the task identifier and the [https] URL taken from that
    source, which reads [ppt] or [pptx], then the URL without its [https],
    a slash, the task identifier, a slash, and a remainder.  The scenes
    handed over are the names of the scenes up to and including that one;
    the scenes after it are not handed over. *)
Theorem openDocs_first_match_wins
    (this : WhiteboardStore) (wm : WindowManager) (scenePath title : string)
    (before rest : list SceneDefinition) (sc : SceneDefinition)
    (p : PptDescription) (g : Groups)
    (Hwm : windowManager this = Some wm)
    (Hbefore : Forall (fun s => matches_pattern s = false) before)
    (Hppt : ppt sc = Some p) (Hre : pptSrcRE_exec (src p) = Some g) :
  openDocsFileInWindowManager scenePath title (before ++ sc :: rest) this
  = (this,
     [windowManager_addApp
        {| kind := Slide;
           options :=
             {| options_scenePath := Some scenePath;
                options_title := Some title;
                options_scenes := Some (map name_only (before ++ [sc])) |};
           attributes :=
             slide_attributes (groups_taskId g)
               ("https" ++ groups_prefix g) |}],
     Await await_addApp_in_try)
  /\ (exists x remainder,
        (x = "" \/ x = "x")
        /\ src p = ("ppt" ++ x ++ groups_prefix g ++ "/" ++ groups_taskId g
                    ++ "/" ++ remainder)%string).
Proof.
  split.
  - exact (openDocs_at_first_match this wm scenePath title before sc p g rest
             Hwm Hbefore Hppt Hre).
  - destruct (pptSrcRE_exec_sound _ _ Hre)
      as [x [mid [remainder [Hx [Hs [Hp _]]]]]].
    exists x, remainder. split; [exact Hx |].
    rewrite Hs, Hp.
    change ("://" ++ mid ++ "dynamicConvert/" ++ groups_taskId g ++ "/"
            ++ remainder)%string
      with ("://" ++ (mid ++ "dynamicConvert" ++ "/" ++ groups_taskId g ++ "/"
            ++ remainder))%string.
    change (("://" ++ mid ++ "dynamicConvert") ++ "/" ++ groups_taskId g
            ++ "/" ++ remainder)%string
      with ("://" ++ ((mid ++ "dynamicConvert") ++ "/" ++ groups_taskId g
            ++ "/" ++ remainder))%string.
    rewrite (append_assoc mid "dynamicConvert"). reflexivity.
Qed.

Lemma openDocs_first_match_wins_witness :
  let cover := {| name := Some "cover"; ppt := None |} in
  let slide n :=
    {| name := Some n;
       ppt := Some {| src := "ppt://cdn/a/dynamicConvert/t_9/" ++ n ++ ".slide";
                      width := 1280; height := 720; previewURL := None |} |} in
  fst (openDocsFileInWindowManager "/deck" "Deck"
         ([cover] ++ slide "1" :: [slide "2"; cover]) (store joined))
  = (store joined,
     [windowManager_addApp
        {| kind := Slide;
           options :=
             {| options_scenePath := Some "/deck";
                options_title := Some "Deck";
                options_scenes :=
                  Some [{| name := Some "cover"; ppt := None |};
                        {| name := Some "1"; ppt := None |}] |};
           attributes :=
             slide_attributes "t_9" "https://cdn/a/dynamicConvert" |}]).
Proof.
  intros cover slide.
  destruct (openDocs_first_match_wins (store joined) sample_manager
              "/deck" "Deck" [cover] [slide "2"; cover] (slide "1")
              {| src := "ppt://cdn/a/dynamicConvert/t_9/1.slide";
                 width := 1280; height := 720; previewURL := None |}
              {| groups_prefix := "://cdn/a/dynamicConvert";
                 groups_taskId := "t_9" |}
              eq_refl
              (Forall_cons cover (eq_refl : matches_pattern cover = false)
                 (Forall_nil _))
              eq_refl eq_refl)
    as [Hopen _].
  rewrite Hopen. reflexivity.
Defined.

(** X4: with a window manager, [openDocsFileInWindowManager] makes exactly
    one [addApp] call and waits for it; the window is a "Slide" window
    exactly when some scene's source matches the pattern, and a
    [DocsViewer] window on the unchanged scene list otherwise.  It never
    hands over more scenes than it was given. *)
Theorem openDocs_slide_iff_some_match
    (this : WhiteboardStore) (wm : WindowManager) (scenePath title : string)
    (scenes : list SceneDefinition)
    (Hwm : windowManager this = Some wm) :
  exists params passed,
    openDocsFileInWindowManager scenePath title scenes this
    = (this, [windowManager_addApp params], Await await_addApp_in_try)
    /\ kind params
       = (if existsb matches_pattern scenes then Slide else DocsViewer)
    /\ options params
       = {| options_scenePath := Some scenePath;
            options_title := Some title;
            options_scenes := Some passed |}
    /\ (List.length passed <= List.length scenes)%nat
    /\ (if existsb matches_pattern scenes
        then exists k, passed = map name_only (firstn k scenes)
        else passed = scenes /\ attributes params = no_attributes).
Proof.
  destruct (existsb matches_pattern scenes) eqn:Hsome.
  - destruct (first_match_split scenes Hsome)
      as [before [sc [rest [-> [Hbefore Hsc]]]]].
    destruct (matches_pattern_groups sc Hsc) as [p [g [Hppt Hre]]].
    rewrite (openDocs_at_first_match this wm scenePath title before sc p g
               rest Hwm Hbefore Hppt Hre).
    eexists. exists (map name_only (before ++ [sc])).
    split; [reflexivity |]. split; [reflexivity |]. split; [reflexivity |].
    split.
    + rewrite length_map, !length_app. cbn [List.length]. lia.
    + exists (S (List.length before)).
      replace (before ++ sc :: rest) with ((before ++ [sc]) ++ rest)
        by (rewrite <- app_assoc; reflexivity).
      assert (Hlen : List.length (before ++ [sc]) = S (List.length before))
        by (rewrite length_app, Nat.add_comm; reflexivity).
      rewrite firstn_app, Hlen, Nat.sub_diag, firstn_O, app_nil_r.
      rewrite <- Hlen, firstn_all. reflexivity.
  - pose proof (no_match_Forall scenes Hsome) as Hnone.
    rewrite (openDocs_without_match this wm scenePath title scenes Hwm Hnone).
    eexists. exists scenes.
    split; [reflexivity |]. split; [reflexivity |]. split; [reflexivity |].
    split; [lia | split; reflexivity].
Qed.

Lemma openDocs_slide_iff_some_match_witness :
  exists params passed,
    openDocsFileInWindowManager "/deck" "Deck"
      [{| name := Some "cover"; ppt := None |}] (store joined)
    = (store joined, [windowManager_addApp params],
       Await await_addApp_in_try)
    /\ kind params = DocsViewer
    /\ options params
       = {| options_scenePath := Some "/deck";
            options_title := Some "Deck";
            options_scenes := Some passed |}
    /\ (List.length passed <= 1)%nat
    /\ passed = [{| name := Some "cover"; ppt := None |}]
       /\ attributes params = no_attributes.
Proof.
  exact (openDocs_slide_iff_some_match (store joined) sample_manager
           "/deck" "Deck" [{| name := Some "cover"; ppt := None |}] eq_refl).
Defined.

(** X5: [pptSrcRE.exec] finds a match exactly for the sources of the shape
    [ppt] or [pptx], [://], a non-empty run without white space,
    [dynamicConvert/], a non-empty run of word characters, and a slash; and
    the groups it returns are such a reading of the source. *)
Theorem pptSrcRE_exec_decides_pattern (s : string) :
  ((exists g, pptSrcRE_exec s = Some g)
   <-> (exists prefix taskId, pattern_accepts s prefix taskId))
  /\ (forall g, pptSrcRE_exec s = Some g ->
        pattern_accepts s (groups_prefix g) (groups_taskId g)).
Proof.
  split; [split |].
  - intros [g Hg]. exists (groups_prefix g), (groups_taskId g).
    exact (pptSrcRE_exec_sound s g Hg).
  - intros [prefix [taskId H]].
    destruct (pptSrcRE_exec s) as [g |] eqn:Hg; [exists g; reflexivity |].
    exfalso. exact (pptSrcRE_exec_complete s prefix taskId H Hg).
  - exact (pptSrcRE_exec_sound s).
Qed.

Lemma pptSrcRE_exec_decides_pattern_witness :
  (exists g, pptSrcRE_exec example_src = Some g)
  /\ pattern_accepts example_src
       "://cdn.example.com/prefix/dynamicConvert" "TASK123".
Proof.
  destruct (pptSrcRE_exec_decides_pattern example_src) as [_ Hsound].
  split.
  - eexists. reflexivity.
  - exact (Hsound {| groups_prefix := "://cdn.example.com/prefix/dynamicConvert";
                     groups_taskId := "TASK123" |} eq_refl).
Defined.

(** ** What the session keeps *)

Lemma run_call_isKicked g now c this :
  isKicked (fst (fst (run_call g now c this)))
  = isKicked this
    || negb (isCreator this) && is_qualifying_kick (invoke c).
Proof.
  destruct c; simpl; rewrite ?Bool.andb_false_r, ?Bool.orb_false_r;
    try (field_after_method; fail).
  unfold sync, onKickedWithReason.
  destruct (String.eqb reason "kickByAdmin" || String.eqb reason "roomDelete"
            || String.eqb reason "roomBan");
    destruct (isCreator this); simpl;
    rewrite ?Bool.orb_false_r, ?Bool.orb_true_r; reflexivity.
Qed.

Lemma step_isKicked g m e :
  isKicked (store (step g m e))
  = isKicked (store m)
    || negb (isCreator (store m)) && is_qualifying_kick e.
Proof.
  destruct e; simpl.
  - rewrite store_after. apply run_call_isKicked.
  - rewrite Bool.andb_false_r, Bool.orb_false_r.
    destruct (nth_error (suspended m) n); [| reflexivity].
    rewrite store_after. apply resume_isKicked.
  - rewrite Bool.andb_false_r, Bool.orb_false_r. reflexivity.
  - rewrite Bool.andb_false_r, Bool.orb_false_r.
    destruct (room (store m)); reflexivity.
  - rewrite Bool.andb_false_r, Bool.orb_false_r.
    destruct (windowManager (store m)); reflexivity.
Qed.

(** X6: whatever happens in a session, [isKicked] is [true] at the end
    exactly when it was [true] at the start or the store is not the
    creator's and a kick notification with reason "kickByAdmin",
    "roomDelete" or "roomBan" came in: no method ever clears the flag, and
    nothing else ever sets it. *)
Theorem isKicked_iff_qualifying_kick
    (g : Globals) (m : Machine) (events : list Event) :
  isKicked (store (run g m events))
  = isKicked (store m)
    || negb (isCreator (store m)) && existsb is_qualifying_kick events.
Proof.
  induction events as [| e events IH] using rev_ind.
  - simpl. rewrite Bool.andb_false_r, Bool.orb_false_r. reflexivity.
  - rewrite run_snoc, step_isKicked, IH, run_isCreator, existsb_app.
    simpl. rewrite Bool.orb_false_r.
    destruct (isKicked (store m)), (isCreator (store m)),
      (existsb is_qualifying_kick events), (is_qualifying_kick e);
      reflexivity.
Qed.

(** X7: once the store holds a room handle it holds one for good: no
    method, callback, answer or timer puts [null] back into [this.room],
    [destroy] included. *)
Theorem room_handle_is_never_released
    (g : Globals) (m : Machine) (events : list Event)
    (Hroom : has_room (store m) = true) :
  has_room (store (run g m events)) = true.
Proof.
  induction events as [| e events IH] using rev_ind; [exact Hroom |].
  rewrite run_snoc. apply step_keeps_room. exact IH.
Qed.

Lemma room_handle_is_never_released_witness :
  has_room
    (store
       (run sample_globals joined
          [invoke Call.destroyWindowManager; invoke Call.destroy;
           invoke (Call.onDisconnectWithError {| message := "lost" |});
           elapse 5000; invoke Call.destroy]))
  = true.
Proof.
  exact (room_handle_is_never_released sample_globals joined _ eq_refl).
Defined.

(** X8: [destroy] can be repeated: a second [destroy] leaves the store as
    the first left it and does not call [windowManager.destroy] again; what
    it does repeat is [room.callbacks.off()] when a room is held, and the
    log line. *)
Theorem destroy_twice (g : Globals) (this : WhiteboardStore) :
  let once := fst (destroy g this) in
  fst (destroy g once) = once
  /\ snd (destroy g once)
     = match room this with
       | Some _ => [room_callbacks_off]
       | None => []
       end
       ++ (if is_development (platform g)
           then [window_room_set None; window_manager_set None]
           else [])
       ++ [console_log_unloaded (whiteboardRoomUUID (globalStore g))].
Proof.
  cbv zeta. unfold destroy, destroyWindowManager. simpl.
  split; reflexivity.
Qed.

(** X9: the methods that drive the window manager never write the store,
    neither when they are called nor when the window manager answers,
    whatever it answers and whatever the store holds by then. *)
Theorem window_commands_leave_store
    (g : Globals) (now : N) (this : WhiteboardStore) :
  (forall c, window_command c = true ->
     fst (fst (run_call g now c this)) = this)
  /\ (forall k answer, window_continuation k = true ->
        fst (fst (resume g k answer this)) = this).
Proof.
  split.
  - intros c Hc. destruct c; try discriminate Hc; simpl;
      unfold_methods; simpl; repeat (break_match; simpl); reflexivity.
  - intros k answer Hk. destruct k; try discriminate Hk; simpl;
      unfold_methods; simpl; repeat (break_match; simpl); reflexivity.
Qed.

Lemma window_commands_leave_store_witness :
  fst (fst (run_call sample_globals 0 Call.addMainViewScene (store joined)))
  = store joined
  /\ fst (fst (resume sample_globals await_addApp
                 (rejected {| message := "no such app" |}) (store joined)))
     = store joined.
Proof.
  destruct (window_commands_leave_store sample_globals 0 (store joined))
    as [Hcall Hk].
  split.
  - exact (Hcall Call.addMainViewScene eq_refl).
  - exact (Hk await_addApp (rejected {| message := "no such app" |}) eq_refl).
Defined.

(** X10: after [destroy], whatever came before, every method that drives
    the window manager is silent: it calls nothing (not even [putScenes] on
    the room for [addMainViewScene]), writes nothing and, if asynchronous,
    returns a resolved promise at once. *)
Theorem window_commands_silent_after_destroy
    (g : Globals) (m0 : Machine) (events : list Event) (now : N)
    (c : Call.t) (Hc : window_command c = true) :
  let this := store (step g (run g m0 events) (invoke Call.destroy)) in
  run_call g now c this = (this, [], Return Resolved).
Proof.
  cbv zeta. generalize (run g m0 events). intros before.
  unfold step. cbn [run_call]. rewrite store_after.
  set (this := fst (fst (sync (destroy g (store before))))).
  assert (Hwm : windowManager this = None) by reflexivity.
  clearbody this.
  destruct c; try discriminate Hc; simpl; unfold_methods; simpl;
    rewrite ?Hwm; try reflexivity.
  destruct (room this); reflexivity.
Qed.

Lemma window_commands_silent_after_destroy_witness :
  let this := store (step sample_globals joined (invoke Call.destroy)) in
  run_call sample_globals 0 Call.addMainViewScene this
  = (this, [], Return Resolved).
Proof.
  exact (window_commands_silent_after_destroy sample_globals joined [] 0
           Call.addMainViewScene eq_refl).
Defined.

(** ** The join handshake *)

Lemma credentials_checks g :
  credentials (globalStore g) = true ->
  truthy (userUUID (globalStore g)) = true
  /\ truthy (whiteboardRoomUUID (globalStore g)) = true
  /\ truthy (whiteboardRoomToken (globalStore g)) = true.
Proof.
  unfold credentials. intros H.
  apply andb_prop in H. destruct H as [H Htoken].
  apply andb_prop in H. destruct H as [Huser Hroom]. auto.
Qed.

Lemma step_join g m :
  credentials (globalStore g) = true ->
  step g m (invoke Call.joinWhiteboardRoom)
  = {| store := store m;
       suspended := suspended m ++ [await_joinRoom];
       clock := clock m;
       calls := calls m ++ join_calls g (isWritable (store m)) |}.
Proof.
  intros H. destruct (credentials_checks g H) as [Hu [Hr Ht]].
  unfold step, run_call, joinWhiteboardRoom. rewrite Hu, Hr, Ht.
  reflexivity.
Qed.

Lemma last_nonempty {A} (x : A) l d d' : last (x :: l) d = last (x :: l) d'.
Proof.
  revert x. induction l as [| y l IH]; intros x; [reflexivity |].
  change (last (y :: l) d = last (y :: l) d'). apply IH.
Qed.

Lemma run_updateWritable_without_room g bs :
  forall m,
    room (store m) = None ->
    run g m (updateWritable_calls bs)
    = {| store := set_isWritable (last bs (isWritable (store m))) (store m);
         suspended := suspended m;
         clock := clock m;
         calls := calls m |}.
Proof.
  induction bs as [| b bs IH]; intros m Hroom.
  - simpl. rewrite set_isWritable_same. destruct m; reflexivity.
  - change (run g m (updateWritable_calls (b :: bs)))
      with (run g (step g m (invoke (Call.updateWritable b)))
              (updateWritable_calls bs)).
    assert (Hstep : step g m (invoke (Call.updateWritable b))
                    = {| store := set_isWritable b (store m);
                         suspended := suspended m;
                         clock := clock m;
                         calls := calls m |}).
    { unfold step, run_call, updateWritable, has_room. simpl.
      rewrite Hroom, Bool.andb_false_r. simpl. rewrite app_nil_r.
      reflexivity. }
    rewrite Hstep, IH by exact Hroom. simpl.
    destruct bs as [| b' bs]; [reflexivity |].
    rewrite (last_nonempty b' bs b (isWritable (store m))). reflexivity.
Qed.

(** X11: a first join, with [updateWritable] called any number of times
    while the join request is in flight.  No call reaches the room (there
    is none yet): the SDK was told at the join the value the store held
    then and is never told another, while the store holds the value of the
    last call and the joined room gets [disableDeviceInputs] from that last
    value.  Once the answer is in, the store holds the room, mirrors its
    scene index and scene count, and holds the window manager plugged into
    the room; [isBroadcasterMode] stays [undefined], since it is read from
    the window manager the store held before this one was stored. *)
Theorem join_with_writable_changes_in_flight
    (g : Globals) (config_isCreator : bool) (r : Room) (bs : list bool)
    (Hcredentials : credentials (globalStore g) = true) :
  let w := last bs config_isCreator in
  let joined_room := set_disableDeviceInputs (negb w) r in
  let m :=
    run g (boot config_isCreator)
      (invoke Call.joinWhiteboardRoom
       :: updateWritable_calls bs ++ [settle 0 (fulfilled_with r)]) in
  suspended m = []
  /\ isWritable (store m) = w
  /\ room (store m) = Some joined_room
  /\ currentSceneIndex (store m) = index (sceneState (state r))
  /\ scenesCount (store m)
     = Z.of_nat (List.length (scenes (sceneState (state r))))
  /\ windowManager (store m) = getInvisiblePlugin r
  /\ isBroadcasterMode (store m) = None
  /\ calls m
     = join_calls g config_isCreator
       ++ cursorAdapter_setRoom joined_room
          :: (if is_development (platform g)
              then [window_room_set (Some joined_room);
                    window_manager_set (getInvisiblePlugin r)]
              else []).
Proof.
  cbv zeta.
  change (run g (boot config_isCreator)
            (invoke Call.joinWhiteboardRoom
             :: updateWritable_calls bs ++ [settle 0 (fulfilled_with r)]))
    with (run g (step g (boot config_isCreator)
                   (invoke Call.joinWhiteboardRoom))
            (updateWritable_calls bs ++ [settle 0 (fulfilled_with r)])).
  rewrite (step_join g _ Hcredentials), run_app.
  rewrite run_updateWritable_without_room by reflexivity.
  simpl.
  destruct (broadcastState (state r)), (is_development (platform g));
    simpl; repeat split.
Qed.

Lemma join_with_writable_changes_in_flight_witness :
  let m :=
    run sample_globals (boot false)
      [invoke Call.joinWhiteboardRoom; invoke (Call.updateWritable true);
       settle 0 (fulfilled_with sample_room)] in
  isWritable (store m) = true
  /\ room (store m) = Some (set_disableDeviceInputs false sample_room)
  /\ calls m
     = join_calls sample_globals false
       ++ [cursorAdapter_setRoom (set_disableDeviceInputs false sample_room)].
Proof.
  destruct (join_with_writable_changes_in_flight sample_globals false
              sample_room [true] eq_refl)
    as [_ [Hw [Hroom [_ [_ [_ [_ Hcalls]]]]]]].
  split; [exact Hw |]. split; [exact Hroom | exact Hcalls].
Defined.

(** X12: [destroy] does not stop a join that is in flight.  Called between
    the join request and its answer it finds neither window manager nor
    room, so it calls neither [windowManager.destroy] nor
    [room.callbacks.off]; when the answer comes the store takes the room
    and its window manager as after any join, and the callbacks given to
    [joinRoom] stay registered. *)
Theorem destroy_does_not_stop_join
    (g : Globals) (config_isCreator : bool) (r : Room)
    (Hcredentials : credentials (globalStore g) = true) :
  let joined_room := set_disableDeviceInputs (negb config_isCreator) r in
  let dev_null :=
    if is_development (platform g)
    then [window_room_set None; window_manager_set None]
    else [] in
  let dev_set :=
    if is_development (platform g)
    then [window_room_set (Some joined_room);
          window_manager_set (getInvisiblePlugin r)]
    else [] in
  let m :=
    run g (boot config_isCreator)
      [invoke Call.joinWhiteboardRoom; invoke Call.destroy;
       settle 0 (fulfilled_with r)] in
  room (store m) = Some joined_room
  /\ windowManager (store m) = getInvisiblePlugin r
  /\ calls m
     = (join_calls g config_isCreator
        ++ dev_null
        ++ [console_log_unloaded (whiteboardRoomUUID (globalStore g))])
       ++ cursorAdapter_setRoom joined_room :: dev_set.
Proof.
  cbv zeta.
  change (run g (boot config_isCreator)
            [invoke Call.joinWhiteboardRoom; invoke Call.destroy;
             settle 0 (fulfilled_with r)])
    with (run g (step g (boot config_isCreator)
                   (invoke Call.joinWhiteboardRoom))
            [invoke Call.destroy; settle 0 (fulfilled_with r)]).
  rewrite (step_join g _ Hcredentials).
  simpl.
  destruct (broadcastState (state r)), (is_development (platform g));
    simpl; repeat split.
Qed.

Lemma destroy_does_not_stop_join_witness :
  let m :=
    run sample_globals (boot true)
      [invoke Call.joinWhiteboardRoom; invoke Call.destroy;
       settle 0 (fulfilled_with sample_room)] in
  room (store m) = Some (set_disableDeviceInputs false sample_room)
  /\ windowManager (store m) = Some sample_manager.
Proof.
  destruct (destroy_does_not_stop_join sample_globals true sample_room
              eq_refl) as [Hroom [Hwm _]].
  split; [exact Hroom | exact Hwm].
Defined.

(** ** Pagination stays in bounds *)

Lemma resync_pagination_ok r this :
  scene_state_ok (sceneState (state r)) = true ->
  pagination_ok (resync_pagination r this) = true.
Proof.
  unfold pagination_ok, resync_pagination, scene_state_ok. simpl.
  intros ->. apply Bool.orb_true_r.
Qed.

Lemma run_call_pagination g now c this :
  event_ok (invoke c) = true ->
  pagination_ok this = true -> room_ok this = true ->
  pagination_ok (fst (fst (run_call g now c this))) = true
  /\ room_ok (fst (fst (run_call g now c this))) = true.
Proof.
  intros He Hp Hr. unfold room_ok in *.
  destruct (room this) as [r0 |] eqn:Hroom;
    destruct c; simpl in He; try discriminate He; simpl;
    unfold_methods; simpl; rewrite ?Hroom; simpl;
    repeat (break_match; simpl in * ); pagination_finish.
Qed.

Lemma resume_pagination g k answer this n :
  event_ok (settle n answer) = true ->
  pagination_ok this = true -> room_ok this = true ->
  pagination_ok (fst (fst (resume g k answer this))) = true
  /\ room_ok (fst (fst (resume g k answer this))) = true.
Proof.
  intros He Hp Hr. unfold room_ok in *.
  destruct (room this) as [r0 |] eqn:Hroom;
    destruct k; simpl;
    unfold_methods; simpl; rewrite ?Hroom; simpl;
    repeat (break_match; simpl in * ); pagination_finish.
Qed.

Lemma step_pagination g m e :
  event_ok e = true ->
  pagination_ok (store m) = true -> room_ok (store m) = true ->
  pagination_ok (store (step g m e)) = true
  /\ room_ok (store (step g m e)) = true.
Proof.
  intros He Hp Hr. destruct e.
  - unfold step. rewrite store_after.
    exact (run_call_pagination g (clock m) c (store m) He Hp Hr).
  - unfold step. destruct (nth_error (suspended m) n) as [k |];
      [| split; assumption].
    rewrite store_after.
    exact (resume_pagination g k answer (store m) n He Hp Hr).
  - split; assumption.
  - simpl in He. simpl. unfold room_ok, pagination_ok in *.
    destruct (room (store m)) eqn:Hheld; simpl; rewrite ?Hheld;
      split; try assumption; reflexivity.
  - simpl. unfold room_ok, pagination_ok in *.
    destruct (windowManager (store m)); simpl; split; assumption.
Qed.

(** X13: the pagination fields stay in bounds through a whole session.
    As long as every scene state the SDK shows (in the joined room, in
    [updateRoom], in a later room state) has its index among its scenes,
    and the two bare setters [updateCurrentSceneIndex] and
    [updateScenesCount] are left to the store, [currentSceneIndex] and
    [scenesCount] are either still [0] and [0], as constructed, or satisfy
    [0 <= currentSceneIndex <= scenesCount - 1], after every event:
    navigation, notifications, answers, in any order. *)
Theorem pagination_stays_in_bounds
    (g : Globals) (m : Machine) (events : list Event)
    (Hpagination : pagination_ok (store m) = true)
    (Hroom : room_ok (store m) = true)
    (Hevents : forallb event_ok events = true) :
  pagination_ok (store (run g m events)) = true
  /\ room_ok (store (run g m events)) = true.
Proof.
  revert Hevents. induction events as [| e events IH] using rev_ind.
  - intros _. split; assumption.
  - rewrite forallb_app. intros H. apply andb_prop in H.
    destruct H as [Hes He]. simpl in He. rewrite Bool.andb_true_r in He.
    destruct (IH Hes) as [Hp Hr].
    rewrite run_snoc. exact (step_pagination g _ e He Hp Hr).
Qed.

Lemma pagination_stays_in_bounds_witness :
  let m := run sample_globals (boot false) sample_session in
  pagination_ok (store m) = true
  /\ currentSceneIndex (store m) = 2
  /\ scenesCount (store m) = 3.
Proof.
  split; [| split; reflexivity].
  exact (proj1 (pagination_stays_in_bounds sample_globals (boot false)
                  sample_session eq_refl eq_refl eq_refl)).
Defined.

(** ** Preloads *)

Lemma run_call_no_preload g now c this :
  preloads (snd (fst (run_call g now c this))) = [].
Proof.
  destruct c; simpl; unfold_methods; simpl;
    repeat (break_match; simpl); reflexivity.
Qed.

Lemma resume_no_preload g k answer this :
  preloads (snd (fst (resume g k answer this))) = []
  /\ preloadPPTResource (fst (fst (resume g k answer this)))
     = preloadPPTResource this.
Proof.
  destruct k; simpl; unfold_methods; simpl;
    repeat (break_match; simpl); split; reflexivity.
Qed.

Lemma run_call_stays_idle g now c this :
  requests_preload (invoke c) = false ->
  preloadPPTResource this = Debounce.idle ->
  preloadPPTResource (fst (fst (run_call g now c this))) = Debounce.idle.
Proof.
  intros Hc Hidle.
  destruct c; simpl in Hc; simpl; unfold_methods; simpl;
    rewrite ?Hc; simpl; repeat (break_match; simpl); auto.
Qed.

Lemma calls_after m waiting r :
  calls (after m waiting r) = calls m ++ snd (fst r).
Proof. destruct r as [[this called] a]. reflexivity. Qed.

Lemma step_stays_idle g m e :
  requests_preload e = false ->
  preloadPPTResource (store m) = Debounce.idle ->
  preloadPPTResource (store (step g m e)) = Debounce.idle
  /\ preloads (calls (step g m e)) = preloads (calls m).
Proof.
  intros He Hidle. destruct e.
  - unfold step. rewrite store_after, calls_after, preloads_app.
    rewrite run_call_no_preload, app_nil_r.
    split; [exact (run_call_stays_idle g _ c _ He Hidle) | reflexivity].
  - unfold step. destruct (nth_error (suspended m) n) as [k |];
      [| split; [assumption | reflexivity]].
    rewrite store_after, calls_after, preloads_app.
    destruct (resume_no_preload g k answer (store m)) as [-> ->].
    rewrite app_nil_r. split; [assumption | reflexivity].
  - simpl. unfold Debounce.fire. rewrite Hidle. simpl.
    rewrite app_nil_r. split; reflexivity.
  - simpl. destruct (room (store m)); simpl; split; auto.
  - simpl. destruct (windowManager (store m)); simpl; split; auto.
Qed.

(** X14: a preload is only ever asked for by a room-state notification
    whose first scene carries a non-empty source.  From a store with no
    preload pending, a session without such a notification never calls
    [coursewarePreloader.preload], however much time passes, and leaves no
    preload pending. *)
Theorem no_preload_without_request
    (g : Globals) (m : Machine) (events : list Event)
    (Hidle : preloadPPTResource (store m) = Debounce.idle)
    (Hevents : forallb (fun e => negb (requests_preload e)) events = true) :
  preloads (calls (run g m events)) = preloads (calls m)
  /\ preloadPPTResource (store (run g m events)) = Debounce.idle.
Proof.
  revert Hevents. induction events as [| e events IH] using rev_ind.
  - intros _. split; [reflexivity | exact Hidle].
  - rewrite forallb_app. intros H. apply andb_prop in H.
    destruct H as [Hes He]. simpl in He. rewrite Bool.andb_true_r in He.
    apply Bool.negb_true_iff in He.
    destruct (IH Hes) as [Hp Hi].
    rewrite run_snoc.
    destruct (step_stays_idle g _ e He Hi) as [Hi' Hp'].
    split; [rewrite Hp'; exact Hp | exact Hi'].
Qed.

Lemma no_preload_without_request_witness :
  preloads (calls (run sample_globals joined sample_quiet_session)) = [].
Proof.
  exact (proj1 (no_preload_without_request sample_globals joined
                  sample_quiet_session eq_refl eq_refl)).
Defined.

Lemma burst_view g requests :
  forall m,
    Forall (fun r => fst r <> "" /\ (snd r < preload_wait)%N) requests ->
    preloads (calls (run g m (burst requests))) = preloads (calls m).
Proof.
  induction requests as [| [pptSrc gap] requests IH]; intros m H;
    [reflexivity |].
  inversion H as [| ? ? [Hsrc Hgap] Hrest]; subst. simpl in Hsrc, Hgap.
  change (run g m (burst ((pptSrc, gap) :: requests)))
    with (run g (step g (step g m (preload_request pptSrc)) (elapse gap))
            (burst requests)).
  rewrite (IH _ Hrest).
  change (preloads (calls ?M)) with (snd (timer_view M)).
  unfold preload_request.
  rewrite elapse_view, (request_view g m (sample_modifyState pptSrc) pptSrc eq_refl Hsrc).
  rewrite (view_request_early pptSrc gap _ Hgap). reflexivity.
Qed.

(** X15: with the debounced function as section 9 of the spec describes
    it, any number of preload requests, each made less than 2000 ms after
    the one before, followed by a last request and 2000 ms or more of
    quiet, run exactly one preload, on the source of the last request;
    whatever was pending before the first request is dropped. *)
Theorem preload_burst_runs_last_request
    (g : Globals) (m : Machine) (requests : list (string * N))
    (pptSrc : string) (quiet : N)
    (Hrequests :
       Forall (fun r => fst r <> "" /\ (snd r < preload_wait)%N) requests)
    (Hsrc : pptSrc <> "") (Hquiet : (preload_wait <= quiet)%N) :
  let m' :=
    run g m (burst requests ++ [preload_request pptSrc; elapse quiet]) in
  preloads (calls m') = preloads (calls m) ++ [pptSrc]
  /\ preloadPPTResource (store m') = Debounce.idle.
Proof.
  cbv zeta. rewrite run_app.
  rewrite <- (burst_view g requests m Hrequests).
  generalize (run g m (burst requests)). intros m1.
  change (run g m1 [preload_request pptSrc; elapse quiet])
    with (step g (step g m1 (preload_request pptSrc)) (elapse quiet)).
  assert (Hview :
    timer_view (step g (step g m1 (preload_request pptSrc)) (elapse quiet))
    = (Debounce.idle, (clock m1 + quiet)%N, preloads (calls m1) ++ [pptSrc])).
  { unfold preload_request.
    rewrite elapse_view, (request_view g m1 (sample_modifyState pptSrc) pptSrc eq_refl Hsrc).
    rewrite (view_request_due pptSrc quiet _ Hquiet). reflexivity. }
  unfold timer_view in Hview. injection Hview as Hd _ Hp.
  split; [exact Hp | exact Hd].
Qed.

Lemma preload_burst_runs_last_request_witness :
  preloads
    (calls
       (run sample_globals joined
          (burst [("pptx://cdn/dynamicConvert/a/1.slide", 1999%N);
                  ("pptx://cdn/dynamicConvert/b/1.slide", 1500%N)]
           ++ [preload_request "pptx://cdn/dynamicConvert/c/1.slide";
               elapse 2000])))
  = ["pptx://cdn/dynamicConvert/c/1.slide"].
Proof.
  assert (Hrequests :
    Forall (fun r : string * N => fst r <> "" /\ (snd r < preload_wait)%N)
      [("pptx://cdn/dynamicConvert/a/1.slide", 1999%N);
       ("pptx://cdn/dynamicConvert/b/1.slide", 1500%N)]).
  { repeat constructor; simpl; intros H; discriminate H. }
  assert (Hsrc : "pptx://cdn/dynamicConvert/c/1.slide" <> "")
    by (intros H; discriminate H).
  assert (Hq : (preload_wait <= 2000)%N) by (intros H; discriminate H).
  exact (proj1 (preload_burst_runs_last_request sample_globals joined
                  [("pptx://cdn/dynamicConvert/a/1.slide", 1999%N);
                   ("pptx://cdn/dynamicConvert/b/1.slide", 1500%N)]
                  "pptx://cdn/dynamicConvert/c/1.slide" 2000
                  Hrequests Hsrc Hq)).
Defined.

(** ** Focus and the main view *)

(** X16: [isFocusWindow] follows the mode the window manager reports for
    the main view, and [switchMainViewToWriter] goes by it: after a
    "mainViewModeChange" to [Writable] it calls nothing and returns a
    resolved promise; after a change to any other mode, with a window
    manager, it calls [windowManager.switchMainViewToWriter] and waits. *)
Theorem switchMainViewToWriter_follows_mode
    (this : WhiteboardStore) (wm : WindowManager) (mode : ViewVisionMode.t)
    (Hwm : windowManager this = Some wm) :
  let reported := fst (mainViewModeChange_listener mode this) in
  isFocusWindow reported
  = negb (ViewVisionMode.eqb mode ViewVisionMode.Writable)
  /\ switchMainViewToWriter reported
     = if ViewVisionMode.eqb mode ViewVisionMode.Writable
       then (reported, [], Return Resolved)
       else (reported, [windowManager_switchMainViewToWriter],
             Await await_switchMainViewToWriter).
Proof.
  cbv zeta. unfold mainViewModeChange_listener, switchMainViewToWriter.
  destruct mode; simpl; destruct (room this); simpl; rewrite Hwm;
    split; reflexivity.
Qed.

Lemma switchMainViewToWriter_follows_mode_witness :
  let reported :=
    fst (mainViewModeChange_listener ViewVisionMode.Listening (store joined))
  in
  isFocusWindow reported = true
  /\ switchMainViewToWriter reported
     = (reported, [windowManager_switchMainViewToWriter],
        Await await_switchMainViewToWriter).
Proof.
  exact (switchMainViewToWriter_follows_mode (store joined) sample_manager
           ViewVisionMode.Listening eq_refl).
Defined.

(** ** Requests to the room *)





(** ** The lazy quantifier *)

Lemma lazy_nonspace_shortest mid tail t :
  mid <> "" -> all_chars (fun c => negb (isWhiteSpace c)) mid = true ->
  dynamicConvert_taskId tail = Some t ->
  exists m' t',
    lazy_nonspace (mid ++ tail) = Some (m', t')
    /\ (String.length m' <= String.length mid)%nat.
Proof.
  intros Hmid Hall Htail.
  induction mid as [| c mid IH]; [contradiction |].
  simpl in Hall. apply andb_prop in Hall. destruct Hall as [Hc Hall].
  apply Bool.negb_true_iff in Hc.
  change (String c mid ++ tail)%string with (String c (mid ++ tail)%string).
  cbn [lazy_nonspace]. rewrite Hc.
  destruct (dynamicConvert_taskId (mid ++ tail)) as [t1 |] eqn:Hdyn.
  - exists (String c ""), t1. split; [reflexivity |]. simpl. lia.
  - destruct mid as [| d mid].
    + simpl in Hdyn. congruence.
    + destruct (IH ltac:(discriminate) Hall) as [m' [t' [-> Hlen]]].
      exists (String c m'), t'. split; [reflexivity |].
      simpl in *. lia.
Qed.

Lemma prefix_taskId_shortest mid taskId rest :
  mid <> "" -> all_chars (fun c => negb (isWhiteSpace c)) mid = true ->
  taskId <> "" -> all_chars isWordChar taskId = true ->
  exists g,
    prefix_taskId
      ("://" ++ mid ++ "dynamicConvert/" ++ taskId ++ "/" ++ rest)
    = Some g
    /\ (String.length (groups_prefix g)
        <= String.length ("://" ++ mid ++ "dynamicConvert"))%nat.
Proof.
  intros Hmid Hall Ht Hword.
  destruct (lazy_nonspace_shortest mid
              ("dynamicConvert/" ++ taskId ++ "/" ++ rest) taskId Hmid Hall
              (dynamicConvert_taskId_complete taskId rest Ht Hword))
    as [m' [t' [Hlazy Hlen]]].
  unfold prefix_taskId. rewrite literal_complete, Hlazy.
  eexists. split; [reflexivity |].
  cbn [groups_prefix]. change ("://" ++ ?x)%string
    with (String ":" (String "/" (String "/" x))).
  cbn [String.length]. rewrite !length_append. lia.
Qed.

(** X18: the lazy quantifier takes the first occurrence.  Among all the
    ways the pattern reads a source, [exec] returns one whose [prefix]
    group is the shortest: when [dynamicConvert/<id>/] occurs several times
    in a source, the task identifier comes from the first occurrence. *)
Theorem pptSrcRE_exec_takes_first_occurrence
    (s prefix taskId : string) (g : Groups)
    (Hexec : pptSrcRE_exec s = Some g)
    (Haccepts : pattern_accepts s prefix taskId) :
  (String.length (groups_prefix g) <= String.length prefix)%nat.
Proof.
  destruct Haccepts as [x [mid [rest [Hx [-> [-> [Hmid [Hall [Ht Hword]]]]]]]]].
  destruct (prefix_taskId_shortest mid taskId rest Hmid Hall Ht Hword)
    as [g0 [Hg0 Hlen]].
  revert Hexec. unfold pptSrcRE_exec. rewrite literal_complete.
  set (tail :=
         ("://" ++ mid ++ "dynamicConvert/" ++ taskId ++ "/" ++ rest)%string)
    in *.
  destruct Hx as [-> | ->].
  - change ("" ++ tail)%string with tail.
    change (match tail with
            | String "x" s2 =>
                match prefix_taskId s2 with
                | Some g1 => Some g1
                | None => prefix_taskId tail
                end
            | _ => prefix_taskId tail
            end)
      with (prefix_taskId tail).
    rewrite Hg0. intros H. injection H as <-. exact Hlen.
  - change (match prefix_taskId tail with
            | Some g1 => Some g1
            | None => prefix_taskId (String "x" tail)
            end = Some g ->
            (String.length (groups_prefix g)
             <= String.length ("://" ++ mid ++ "dynamicConvert"))%nat).
    rewrite Hg0. intros H. injection H as <-. exact Hlen.
Qed.

Lemma pptSrcRE_exec_takes_first_occurrence_witness :
  pptSrcRE_exec "pptx://cdn/dynamicConvert/first/dynamicConvert/second/1.slide"
  = Some {| groups_prefix := "://cdn/dynamicConvert";
            groups_taskId := "first" |}
  /\ (String.length "://cdn/dynamicConvert"
      <= String.length "://cdn/dynamicConvert/first/dynamicConvert")%nat.
Proof.
  split; [reflexivity |].
  apply (pptSrcRE_exec_takes_first_occurrence
           "pptx://cdn/dynamicConvert/first/dynamicConvert/second/1.slide"
           "://cdn/dynamicConvert/first/dynamicConvert" "second"
           {| groups_prefix := "://cdn/dynamicConvert";
              groups_taskId := "first" |}
           eq_refl).
  exists "x", "cdn/dynamicConvert/first/", "1.slide".
  repeat split; try reflexivity; try (intros H; discriminate H).
  right. reflexivity.
Defined.

(** ** Device inputs through a session of awaited calls *)

Lemma awaited_call_inputs g m b :
  suspended m = [] -> inputs_agree (store m) = true ->
  let m' := run g m (awaited b) in
  suspended m' = [] /\ inputs_agree (store m') = true
  /\ isWritable (store m') = b.
Proof.
  destruct m as [this waiting now called]. simpl. intros -> Hagree.
  unfold updateWritable, has_room.
  destruct (Bool.eqb (isWritable this) b) eqn:Hsame.
  - apply Bool.eqb_prop in Hsame. subst b.
    rewrite set_isWritable_same. simpl. repeat split. exact Hagree.
  - simpl. destruct (room this) as [r |] eqn:Hroom; simpl.
    + unfold updateWritable_k. simpl. rewrite Hroom. simpl.
      unfold inputs_agree. destruct b; simpl; repeat split;
        apply Bool.eqb_reflx.
    + unfold inputs_agree. simpl. rewrite Hroom. repeat split.
Qed.

Lemma awaited_calls_inputs g bs :
  forall m,
    suspended m = [] -> inputs_agree (store m) = true ->
    let m' := run g m (List.concat (map awaited bs)) in
    suspended m' = [] /\ inputs_agree (store m') = true
    /\ isWritable (store m') = last bs (isWritable (store m)).
Proof.
  induction bs as [| b bs IH]; intros m Hs Hg.
  - repeat split; assumption.
  - cbn [map List.concat]. cbv zeta. rewrite run_app.
    destruct (awaited_call_inputs g m b Hs Hg) as [Hs' [Hg' Hw]].
    destruct (IH _ Hs' Hg') as [Hs2 [Hg2 Hw2]].
    split; [exact Hs2 |]. split; [exact Hg2 |].
    rewrite Hw2, Hw. destruct bs as [| b' bs]; [reflexivity |].
    exact (last_nonempty b' bs b (isWritable (store m))).
Qed.

(** X19: a session that joins and then changes the write permission only
    through awaited, accepted calls keeps the room's device inputs in step
    with the store: after the join and after every call,
    [disableDeviceInputs] is the negation of [isWritable], for creator and
    participant alike, and [isWritable] is the argument of the last call. *)
Theorem device_inputs_follow_awaited_calls
    (g : Globals) (config_isCreator : bool) (r : Room) (bs : list bool)
    (Hcredentials : credentials (globalStore g) = true) :
  let m :=
    run g (boot config_isCreator)
      ([invoke Call.joinWhiteboardRoom; settle 0 (fulfilled_with r)]
       ++ List.concat (map awaited bs)) in
  suspended m = []
  /\ inputs_agree (store m) = true
  /\ isWritable (store m) = last bs config_isCreator.
Proof.
  cbv zeta. rewrite run_app.
  change (run g (boot config_isCreator)
            [invoke Call.joinWhiteboardRoom; settle 0 (fulfilled_with r)])
    with (step g (step g (boot config_isCreator)
                    (invoke Call.joinWhiteboardRoom))
            (settle 0 (fulfilled_with r))).
  rewrite (step_join g _ Hcredentials).
  set (m1 := step g _ (settle 0 (fulfilled_with r))).
  assert (Hs : suspended m1 = []) by reflexivity.
  assert (Hw : isWritable (store m1) = config_isCreator).
  { unfold m1. simpl. destruct (broadcastState (state r)); reflexivity. }
  assert (Hg : inputs_agree (store m1) = true).
  { unfold m1, inputs_agree. simpl.
    destruct (broadcastState (state r)); simpl; apply Bool.eqb_reflx. }
  clearbody m1.
  destruct (awaited_calls_inputs g bs m1 Hs Hg) as [Hs' [Hg' Hw']].
  split; [exact Hs' |]. split; [exact Hg' |]. rewrite Hw', Hw. reflexivity.
Qed.

Lemma device_inputs_follow_awaited_calls_witness :
  let m :=
    run sample_globals (boot true)
      ([invoke Call.joinWhiteboardRoom;
        settle 0 (fulfilled_with sample_room)]
       ++ List.concat (map awaited [false; false; true; false])) in
  inputs_agree (store m) = true /\ isWritable (store m) = false.
Proof.
  destruct (device_inputs_follow_awaited_calls sample_globals true
              sample_room [false; false; true; false] eq_refl)
    as [_ [Hagree Hw]].
  split; [exact Hagree | exact Hw].
Defined.
